(** * coffee.py: the filter and aggregation core of the coffee/health dashboard

    A shallow embedding of [coffee.py].  The script is one linear pass:
    load the table, filter it with the side-bar criteria, stop with a warning
    when nothing is left, otherwise compute one aggregate per tab.

    Conventions of the embedding:
    - a DataFrame is a [list] of rows in index order, a row is a [record];
    - a float64 cell is the rational it denotes ([Q]) and comparisons of
      cells are the exact ones; a float that may be NaN is a [num], with
      [None] for NaN;
    - [mean] and [round] stand for the float64 routines of pandas, numpy and
      Python and compute with exact rationals.  They agree with the routines
      where float64 arithmetic is exact (as on a view where every intake is
      0), not in general: a float sum is rounded at every step and a tie is
      rounded on the float product.  So no property below speaks of the
      value of a mean or of a rounding beyond such cases; the properties are
      about which rows enter an aggregate, which entries come out and in
      which order, and when a value is NaN;
    - a string is the list of its UTF-8 bytes, whose lexicographic order is
      the order of Python on code points; the columns [Smoking] and
      [Alcohol_Consumption] are read as the text of their cells;
    - the Streamlit widgets are the UI layer: the values they return (selected
      countries and genders, the age pair, the chosen metric and habit) are
      arguments here, and the calls that draw something are [event]s. *)

From Stdlib Require Import List ZArith QArith Qround Qabs String Ascii Bool.
From Stdlib Require Import Qminmax Sorted Permutation Lia Lqa.
Import ListNotations.

Open Scope string_scope.
Open Scope list_scope.
Open Scope Z_scope.

(** ** The table *)

(** One row of [synthetic_coffee_health_10000.csv], with the columns the
    script reads. *)
Record record : Type := mkRecord {
  Country : string;
  Gender : string;
  Age : Z;
  Occupation : string;
  Coffee_Intake : Q;
  Sleep_Hours : Q;
  Stress_Level : string;
  Heart_Rate : Q;
  BMI : Q;
  Smoking : string;
  Alcohol_Consumption : string;
  Physical_Activity_Hours : Q
}.

Definition DataFrame := list record.

(** A float64 that may be NaN. *)
Definition num := option Q.

(** [Series.isin(values)] on a column of strings. *)
Fixpoint isin (x : string) (values : list string) : bool :=
  match values with
  | [] => false
  | v :: vs => String.eqb x v || isin x vs
  end.

(** [load_data]: the rows of the CSV whose [Gender] is one of the two
    literals. *)
Definition load_data (csv : DataFrame) : DataFrame :=
  filter (fun r => isin (Gender r) ["Male"; "Female"]) csv.

(** ** Side-bar criteria and the filtered view *)

Record FilterCriteria : Type := mkCriteria {
  countries : list string;
  genders : list string;
  age_range : Z * Z
}.

Definition passes (c : FilterCriteria) (r : record) : bool :=
  isin (Country r) (countries c)
  && isin (Gender r) (genders c)
  && (Age r >=? fst (age_range c))
  && (Age r <=? snd (age_range c)).

Definition filtered_data (data : DataFrame) (c : FilterCriteria) : DataFrame :=
  filter (passes c) data.

(** [DataFrame.empty] *)
Definition empty (df : DataFrame) : bool :=
  match df with [] => true | _ :: _ => false end.

(** ** Numbers *)

Definition dropna (l : list num) : list Q :=
  flat_map (fun x => match x with Some q => [q] | None => [] end) l.

Definition Qsum (l : list Q) : Q := fold_right Qplus 0%Q l.

(** [Series.mean()] on a column without NaN, computed on the rationals: NaN
    on the empty column. *)
Definition mean (l : list Q) : num :=
  match l with
  | [] => None
  | _ :: _ => Some (Qsum l / inject_Z (Z.of_nat (List.length l)))%Q
  end.

(** [Series.mean()] on a column that may hold NaN ([skipna=True]). *)
Definition nanmean (l : list num) : num := mean (dropna l).

(** Round half to even, the rounding mode of [round] and [Series.round]. *)
Definition rint (q : Q) : Z :=
  let f := Qfloor q in
  match Qcompare (q - inject_Z f) (1 # 2) with
  | Lt => f
  | Gt => f + 1
  | Eq => if Z.even f then f else f + 1
  end.

(** [round(x, 2)] on a float that is not NaN, computed on the rational:
    the nearest hundredth, a tie going to the even one. *)
Definition round2 (q : Q) : Q := Qred (rint (q * 100) # 100).

(** [round(x, 2)]: NaN stays NaN. *)
Definition round (x : num) : num := option_map round2 x.

(** [Series.min()] and [Series.max()]: NaN when no value is left. *)
Definition series_min (l : list num) : num :=
  match dropna l with
  | [] => None
  | x :: xs => Some (fold_left Qmin xs x)
  end.

Definition series_max (l : list num) : num :=
  match dropna l with
  | [] => None
  | x :: xs => Some (fold_left Qmax xs x)
  end.

(** [x or d] on a numpy float: NaN is truthy, only zero is falsy. *)
Definition py_or (x : num) (d : Q) : num :=
  match x with
  | None => None
  | Some q => if Qeq_bool q 0 then Some d else Some q
  end.

(** [max(a, b)] of Python: the first argument unless the second is greater. *)
Definition py_max (a b : Q) : Q :=
  if Qle_bool b a then a else b.

(** ** Dictionaries *)

Fixpoint dict_lookup {V : Type} (d : list (string * V)) (k : string) : option V :=
  match d with
  | [] => None
  | (k', v) :: d' => if String.eqb k k' then Some v else dict_lookup d' k
  end.

(** [d.get(k, default)] *)
Definition dict_get {V : Type} (d : list (string * V)) (k : string) (default : V) : V :=
  match dict_lookup d k with
  | Some v => v
  | None => default
  end.

Definition stress_mapping : list (string * Q) :=
  [("Low", 1%Q); ("Medium", 2%Q); ("High", 3%Q)].

(** The column [Stress_Index]: [Series.map] leaves NaN where the key is
    missing. *)
Definition Stress_Index (r : record) : num :=
  dict_lookup stress_mapping (Stress_Level r).

(** ** groupby *)

(** [DataFrame.groupby(key)]: the groups in ascending key order
    ([sort=True]), the rows of a group in index order, rows whose key is NaN
    dropped ([dropna=True]). *)
Section GroupBy.
Context {K R : Type}.
Variable ltb : K -> K -> bool.

Fixpoint insert_group (k : K) (r : R) (gs : list (K * list R))
  : list (K * list R) :=
  match gs with
  | [] => [(k, [r])]
  | (k', g) :: rest =>
      if ltb k k' then (k, [r]) :: gs
      else if ltb k' k then (k', g) :: insert_group k r rest
      else (k', g ++ [r]) :: rest
  end.

Definition groupby (key : R -> option K) (rows : list R)
  : list (K * list R) :=
  fold_left
    (fun gs r => match key r with
                 | Some k => insert_group k r gs
                 | None => gs
                 end)
    rows [].

(** Equality of keys, as the order decides it. *)
Definition keqb (a b : K) : bool := negb (ltb a b) && negb (ltb b a).

(** The rows carrying key [k], in index order. *)
Definition group_of (key : R -> option K) (k : K) (rows : list R) : list R :=
  filter (fun r => match key r with
                   | Some k' => keqb k' k
                   | None => false
                   end) rows.

Fixpoint assoc (k : K) (gs : list (K * list R)) : option (list R) :=
  match gs with
  | [] => None
  | (k', g) :: rest => if keqb k k' then Some g else assoc k rest
  end.
End GroupBy.

(** Keys made of two columns are ordered column by column. *)
Definition ltb_pair {A B : Type} (ltA : A -> A -> bool) (ltB : B -> B -> bool)
  (p q : A * B) : bool :=
  ltA (fst p) (fst q) || (negb (ltA (fst q) (fst p)) && ltB (snd p) (snd q)).

(** The orders the script groups by are strict total orders. *)
Class StrictTotal {K : Type} (ltb : K -> K -> bool) : Prop := {
  ltb_irrefl : forall a, ltb a a = false;
  ltb_trans : forall a b c, ltb a b = true -> ltb b c = true -> ltb a c = true;
  ltb_total : forall a b, ltb a b = false -> ltb b a = false -> a = b
}.

(** ** What the script shows *)

Inductive health_metric : Type :=
| Metric_Sleep_Hours
| Metric_Stress_Index
| Metric_Heart_Rate
| Metric_BMI.

Inductive habit : Type :=
| Habit_Smoking
| Habit_Alcohol_Consumption
| Habit_Physical_Activity_Hours.

(** One entry of [scatter_data]. *)
Record point : Type := mkPoint {
  value : Q * num;
  name : string;
  symbolSize : Q;
  itemStyle_color : string
}.

Inductive chart : Type :=
| Scatter (yAxis_name : string) (data : list point)
| Bar (xAxis_data : list string) (data : list num)
| Boxplot (xAxis_data : list string) (data : list (list Q))
| Line (xAxis_data : list Z) (coffee sleep : list num).

Inductive event : Type :=
| st_warning (body : string)
| st_metric (label : string) (v : num)
| st_echarts (options : chart)
| html_map (data_pairs : list (string * num)) (min_ max_ : num)
| uncaught (exception : string).

(** A run of the script: what it has put on the page so far (calls that
    only lay the page out are left out; an exception that nothing catches
    is printed on the page by Streamlit), and its value unless [st.stop()]
    or an exception ended it. *)
Definition script (A : Type) : Type := list event * option A.

Definition ret {A : Type} (a : A) : script A := ([], Some a).

Definition bind {A B : Type} (m : script A) (f : A -> script B) : script B :=
  match m with
  | (es, Some a) => let (es', b) := f a in (es ++ es', b)
  | (es, None) => (es, None)
  end.

Definition show (e : event) : script unit := ([e], Some tt).

Definition st_stop {A : Type} : script A := ([], None).

(** [raise]: nothing in the script catches an exception. *)
Definition py_raise {A : Type} (exception : string) : script A :=
  ([uncaught exception], None).

Notation "m ;; k" := (bind m (fun _ => k))
  (at level 61, right associativity).

(** ** Tab 1: KPI *)

Definition tab1 (fd : DataFrame) : script unit :=
  show (st_metric "平均咖啡摄入量 (cups/day)" (round (mean (map Coffee_Intake fd)))) ;;
  show (st_metric "平均睡眠时长 (hours/day)" (round (mean (map Sleep_Hours fd)))) ;;
  show (st_metric "平均压力指数" (round (nanmean (map Stress_Index fd)))) ;;
  show (st_metric "平均 BMI" (round (mean (map BMI fd)))).

(** ** Tab 2: scatter *)

Definition column_name (hm : health_metric) : string :=
  match hm with
  | Metric_Sleep_Hours => "Sleep_Hours"
  | Metric_Stress_Index => "Stress_Index"
  | Metric_Heart_Rate => "Heart_Rate"
  | Metric_BMI => "BMI"
  end.

(** [row[health_metric]] *)
Definition column (hm : health_metric) (row : record) : num :=
  match hm with
  | Metric_Sleep_Hours => Some (Sleep_Hours row)
  | Metric_Stress_Index => Stress_Index row
  | Metric_Heart_Rate => Some (Heart_Rate row)
  | Metric_BMI => Some (BMI row)
  end.

Definition scatter_data (hm : health_metric) (fd : DataFrame) : list point :=
  map (fun row =>
         {| value := (Coffee_Intake row, column hm row);
            name := (Country row ++ " / " ++ Occupation row)%string;
            symbolSize := py_max 5 (inject_Z (Age row) / 5);
            itemStyle_color :=
              if String.eqb (Gender row) "Male" then "#FF5722" else "#2196F3" |})
      fd.

Definition tab2 (hm : health_metric) (fd : DataFrame) : script unit :=
  show (st_echarts (Scatter (column_name hm) (scatter_data hm fd))).

(** ** Tab 3: map *)

(** [groupby('Country')['Coffee_Intake'].mean().reset_index()] *)
Definition country_avg (fd : DataFrame) : list (string * num) :=
  map (fun kg => (fst kg, mean (map Coffee_Intake (snd kg))))
      (groupby String.ltb (fun r => Some (Country r)) fd).

Definition country_name_map : list (string * string) :=
  [("USA", "United States");
   ("UK", "United Kingdom");
   ("South Korea", "Korea, Rep.")].

Definition data_list (fd : DataFrame) : list (string * num) :=
  map (fun row => (dict_get country_name_map (fst row) (fst row), round (snd row)))
      (country_avg fd).

Definition min_val (fd : DataFrame) : num :=
  py_or (series_min (map snd (country_avg fd))) 0.

Definition max_val (fd : DataFrame) : num :=
  py_or (series_max (map snd (country_avg fd))) 1.

(** [opts.VisualMapOpts(min_=..., max_=..., is_calculable=True,
    range_text=..., in_range=...)], lines 131 to 137: the class of pyecharts
    has no parameter [in_range], so the call raises [TypeError]. *)
Definition VisualMapOpts (min_ max_ : num) : script unit :=
  py_raise "TypeError".

(** Lines 94 to 142: the pairs and the bounds are computed and the pairs
    handed to the map, but the run ends in the call of [VisualMapOpts];
    [html(m.render_embed())] of line 142 is not reached. *)
Definition tab3 (fd : DataFrame) : script unit :=
  VisualMapOpts (min_val fd) (max_val fd) ;;
  show (html_map (data_list fd) (min_val fd) (max_val fd)).

(** ** Tab 4: occupations and habits *)

Definition occupation_avg (fd : DataFrame) : list ((string * string) * num) :=
  map (fun kg => (fst kg, mean (map Coffee_Intake (snd kg))))
      (groupby (ltb_pair String.ltb String.ltb)
               (fun r => Some (Occupation r, Gender r)) fd).

Definition data_bar (fd : DataFrame) : list (string * num) :=
  map (fun row =>
         ((fst (fst row) ++ " (" ++ snd (fst row) ++ ")")%string,
          round (snd row)))
      (occupation_avg fd).

(** [bins.searchsorted(x, side='left')]: how many edges lie below [x]. *)
Fixpoint searchsorted_left (bins : list Q) (x : Q) : nat :=
  match bins with
  | [] => O
  | b :: bs => if Qle_bool x b then O else S (searchsorted_left bs x)
  end.

(** [pd.cut(x, bins)] with its defaults [right=True],
    [include_lowest=False]: the code of the interval, NaN at or below the
    first edge and above the last. *)
Definition cut_code (bins : list Q) (x : Q) : option nat :=
  let ids := searchsorted_left bins x in
  if (Nat.eqb ids O || Nat.eqb ids (List.length bins))%bool then None
  else Some (Nat.pred ids).

Definition pd_cut (bins : list Q) (labels : list string) (x : Q) : option string :=
  option_map (fun code => nth code labels "") (cut_code bins x).

Definition activity_edges : list Q := [0; 2; 4; 6; 24]%Q.
Definition activity_labels : list string := ["0-2h"; "2-4h"; "4-6h"; "6h+"].

(** The column [Activity_Bins]. *)
Definition Activity_Bins (r : record) : option string :=
  pd_cut activity_edges activity_labels (Physical_Activity_Hours r).

(** The groups of [groupby(['Activity_Bins','Gender'])] that hold a row, a
    categorical key being ordered by its code.  With [observed=False], the
    default of pandas before 3.0, the result also lists the pairs of bin and
    gender that no row falls in, with NaN in place of a list; those entries
    are not listed here. *)
Definition habits_activity (fd : DataFrame) : list ((nat * string) * list record) :=
  groupby (ltb_pair Nat.ltb String.ltb)
          (fun r => option_map (fun code => (code, Gender r))
                      (cut_code activity_edges (Physical_Activity_Hours r)))
          fd.

(** The groups of [groupby([habit,'Gender'])] for a column used as it is. *)
Definition habits_by (col : record -> string) (fd : DataFrame)
  : list ((string * string) * list record) :=
  groupby (ltb_pair String.ltb String.ltb) (fun r => Some (col r, Gender r)) fd.

(** [habits]: per group the value of [x_var], the gender and the list of
    coffee intakes. *)
Definition habits (hb : habit) (fd : DataFrame) : list ((string * string) * list Q) :=
  match hb with
  | Habit_Physical_Activity_Hours =>
      map (fun kg => ((nth (fst (fst kg)) activity_labels "", snd (fst kg)),
                      map Coffee_Intake (snd kg)))
          (habits_activity fd)
  | Habit_Smoking =>
      map (fun kg => (fst kg, map Coffee_Intake (snd kg))) (habits_by Smoking fd)
  | Habit_Alcohol_Consumption =>
      map (fun kg => (fst kg, map Coffee_Intake (snd kg)))
          (habits_by Alcohol_Consumption fd)
  end.

Definition tab4 (hb : habit) (fd : DataFrame) : script unit :=
  show (st_echarts (Bar (map fst (data_bar fd)) (map snd (data_bar fd)))) ;;
  show (st_echarts
          (Boxplot
             (map (fun row => (fst (fst row) ++ " (" ++ snd (fst row) ++ ")")%string)
                  (habits hb fd))
             (map snd (habits hb fd)))).

(** ** Tab 5: trend by age *)

(** [groupby('Age')[['Coffee_Intake','Sleep_Hours']].mean().reset_index()] *)
Definition age_trend (fd : DataFrame) : list (Z * (num * num)) :=
  map (fun kg => (fst kg, (mean (map Coffee_Intake (snd kg)),
                           mean (map Sleep_Hours (snd kg)))))
      (groupby Z.ltb (fun r => Some (Age r)) fd).

Definition option_line (fd : DataFrame) : chart :=
  Line (map fst (age_trend fd))
       (map (fun row => round (fst (snd row))) (age_trend fd))
       (map (fun row => round (snd (snd row))) (age_trend fd)).

Definition tab5 (fd : DataFrame) : script unit :=
  show (st_echarts (option_line fd)).

(** ** The script, from the filter on *)

Definition no_data_warning : string :=
  "⚠️ 当前筛选条件下没有数据，请调整条件。".

(** Lines 36 to 193, on the table [data] that [load_data] gave and the
    values [c], [hm], [hb] of the widgets.  The side bar of lines 32 to 34
    has run before on the same table. *)
Definition app (data : DataFrame) (c : FilterCriteria)
  (hm : health_metric) (hb : habit) : script unit :=
  let fd := filtered_data data c in
  (if empty fd then show (st_warning no_data_warning) ;; st_stop else ret tt) ;;
  tab1 fd ;;
  tab2 hm fd ;;
  tab3 fd ;;
  tab4 hb fd ;;
  tab5 fd.

(** ** Notions the statements use *)

(** The arithmetic mean of a column. *)
Definition arith_mean (l : list Q) : Q :=
  (Qsum l / inject_Z (Z.of_nat (List.length l)))%Q.

(** The stress ordinal of the data model: Low = 1, Medium = 2, High = 3. *)
Definition stress_ordinal (level : string) : Q :=
  if String.eqb level "Low" then 1%Q
  else if String.eqb level "Medium" then 2%Q
  else 3%Q.

Definition is_warning (e : event) : bool :=
  match e with st_warning _ => true | _ => false end.

(** Activity hours that [pd.cut] gives a bin: the interval (0, 24]. *)
Definition in_activity_range (r : record) : bool :=
  negb (Qle_bool (Physical_Activity_Hours r) 0)
  && Qle_bool (Physical_Activity_Hours r) 24.

(** A row with the columns a scenario fixes, the others at ordinary
    values. *)
Definition sample_row (country gender : string) (age : Z) (coffee activity : Q)
  : record :=
  {| Country := country; Gender := gender; Age := age;
     Occupation := "Office"; Coffee_Intake := coffee; Sleep_Hours := 7;
     Stress_Level := "Low"; Heart_Rate := 70; BMI := 24;
     Smoking := "0"; Alcohol_Consumption := "0";
     Physical_Activity_Hours := activity |}.

(** The three-row scenario: two rows from "US", one 70-year-old from "UK". *)
Definition fixture : DataFrame :=
  [sample_row "US" "Male" 25 3 1;
   sample_row "US" "Female" 45 5 3;
   sample_row "UK" "Male" 70 1 5].

Definition fixture_criteria : FilterCriteria :=
  {| countries := ["US"; "UK"];
     genders := ["Male"; "Female"];
     age_range := (20, 60) |}.

(** ** The side bar *)

(** [Series.unique()]: the values in order of first appearance; [seen] is
    the table of the values met so far. *)
Fixpoint unique_from (seen : list string) (l : list string) : list string :=
  match l with
  | [] => []
  | x :: xs =>
      if isin x seen then unique_from seen xs
      else x :: unique_from (x :: seen) xs
  end.

Definition unique (l : list string) : list string := unique_from [] l.

(** [data['Age'].min()] and [data['Age'].max()]: NaN on the empty column. *)
Definition Age_min (data : DataFrame) : option Z :=
  match map Age data with
  | [] => None
  | a :: l => Some (fold_left Z.min l a)
  end.

Definition Age_max (data : DataFrame) : option Z :=
  match map Age data with
  | [] => None
  | a :: l => Some (fold_left Z.max l a)
  end.

(** The arguments the script computes for the three widgets of the side
    bar.  What Streamlit does with them (it may refuse or adjust them) is
    not modelled. *)
Record sidebar_widgets : Type := mkSidebar {
  country_options : list string;
  gender_options : list string;
  slider_min : Z;
  slider_max : Z;
  slider_default : Z * Z
}.

(** Lines 32 to 34, up to the calls of the widgets.  [None] stands for
    the [ValueError] that [int] raises on the NaN minimum of an empty
    column; [Some] holds the arguments as the script computes them. *)
Definition sidebar (data : DataFrame) : option sidebar_widgets :=
  match Age_min data, Age_max data with
  | Some lo, Some hi =>
      Some {| country_options := unique (map Country data);
              gender_options := unique (map Gender data);
              slider_min := lo;
              slider_max := hi;
              slider_default := (20, 60) |}
  | _, _ => None
  end.

(** The criteria made of the default of each widget: every option of the
    two selectors and the pair (20, 60). *)
Definition default_criteria (w : sidebar_widgets) : FilterCriteria :=
  {| countries := country_options w;
     genders := gender_options w;
     age_range := slider_default w |}.

(** ** More notions the statements use *)

Definition valid_stressb (r : record) : bool :=
  isin (Stress_Level r) ["Low"; "Medium"; "High"].

(** One set of criteria selects no more than another. *)
Definition narrower (c c' : FilterCriteria) : Prop :=
  incl (countries c) (countries c') /\
  incl (genders c) (genders c') /\
  fst (age_range c') <= fst (age_range c) /\
  snd (age_range c) <= snd (age_range c').

(** A view holds a country under a name the map renames and also under the
    name it is renamed to. *)
Definition alias_clash (fd : DataFrame) : Prop :=
  exists alias target,
    In (alias, target) country_name_map /\
    In alias (map Country fd) /\ In target (map Country fd).

(** The boxes of a boxplot by the column [col] and the gender: one box per
    pair of values that occurs, holding the coffee intakes of its rows in
    index order, every row in one box. *)
Definition boxplot_of (col : record -> string) (fd : DataFrame)
  (boxes : list ((string * string) * list Q)) : Prop :=
  NoDup (map fst boxes) /\
  (forall x g vals,
      In ((x, g), vals) boxes <->
      vals <> [] /\
      vals = map Coffee_Intake
                 (filter (fun r => String.eqb (col r) x && String.eqb (Gender r) g)
                         fd)) /\
  List.length (List.concat (map snd boxes)) = List.length fd.

(** The rows of the box of an activity bin and a gender. *)
Definition in_activity_box (label gender : string) (r : record) : bool :=
  match Activity_Bins r with
  | Some l => String.eqb l label && String.eqb (Gender r) gender
  | None => false
  end.

(** ** Lemmas *)

(** *** The orders *)

#[export] Instance Z_ltb_StrictTotal : StrictTotal Z.ltb.
Proof.
  split.
  - intros a. apply Z.ltb_irrefl.
  - intros a b c. rewrite !Z.ltb_lt. lia.
  - intros a b. rewrite !Z.ltb_ge. lia.
Qed.

#[export] Instance nat_ltb_StrictTotal : StrictTotal Nat.ltb.
Proof.
  split.
  - intros a. apply Nat.ltb_irrefl.
  - intros a b c. rewrite !Nat.ltb_lt. lia.
  - intros a b. rewrite !Nat.ltb_ge. lia.
Qed.

Lemma string_compare_refl s : String.compare s s = Eq.
Proof.
  induction s as [|a s IH]; simpl; [reflexivity|].
  unfold Ascii.compare. now rewrite N.compare_refl.
Qed.

Lemma string_compare_trans s1 :
  forall s2 s3,
    String.compare s1 s2 = Lt -> String.compare s2 s3 = Lt ->
    String.compare s1 s3 = Lt.
Proof.
  induction s1 as [|a s1 IH]; intros [|b s2] [|c s3]; simpl;
    try congruence.
  unfold Ascii.compare.
  destruct (N.compare_spec (N_of_ascii a) (N_of_ascii b)) as [Hab|Hab|Hab];
    try discriminate;
  destruct (N.compare_spec (N_of_ascii b) (N_of_ascii c)) as [Hbc|Hbc|Hbc];
    try discriminate; intros H1 H2.
  - rewrite Hab, Hbc, N.compare_refl. eauto.
  - rewrite Hab. now apply N.compare_lt_iff in Hbc as ->.
  - rewrite <- Hbc. now apply N.compare_lt_iff in Hab as ->.
  - assert (Hac : (N_of_ascii a < N_of_ascii c)%N) by lia.
    now apply N.compare_lt_iff in Hac as ->.
Qed.

#[export] Instance string_ltb_StrictTotal : StrictTotal String.ltb.
Proof.
  split; unfold String.ltb.
  - intros a. now rewrite string_compare_refl.
  - intros a b c Hab Hbc.
    destruct (String.compare a b) eqn:E1; try discriminate.
    destruct (String.compare b c) eqn:E2; try discriminate.
    now rewrite (string_compare_trans _ _ _ E1 E2).
  - intros a b Hab Hba. rewrite String.compare_antisym in Hba.
    destruct (String.compare a b) eqn:E; try discriminate.
    now apply String.compare_eq_iff.
Qed.

Section KeyOrder.
Context {K : Type} (ltb : K -> K -> bool) `{!StrictTotal ltb}.

Lemma keqb_eq a b : keqb ltb a b = true <-> a = b.
Proof.
  unfold keqb. rewrite andb_true_iff, !negb_true_iff. split.
  - intros [H1 H2]. now apply (ltb_total (ltb := ltb)).
  - intros ->. now rewrite ltb_irrefl.
Qed.

Lemma keqb_refl a : keqb ltb a a = true.
Proof. now apply keqb_eq. Qed.

Lemma keqb_neq a b : keqb ltb a b = false <-> a <> b.
Proof.
  rewrite <- keqb_eq. destruct (keqb ltb a b); split; congruence.
Qed.

Lemma ltb_neq a b : ltb a b = true -> a <> b.
Proof. intros H ->. rewrite ltb_irrefl in H. discriminate. Qed.

Lemma ltb_asym a b : ltb a b = true -> ltb b a = false.
Proof.
  intros H. destruct (ltb b a) eqn:E; [|reflexivity].
  pose proof (ltb_trans _ _ _ H E) as Haa.
  rewrite ltb_irrefl in Haa. discriminate.
Qed.
End KeyOrder.

#[export] Instance ltb_pair_StrictTotal {A B : Type}
  (ltA : A -> A -> bool) (ltB : B -> B -> bool)
  `{!StrictTotal ltA} `{!StrictTotal ltB} : StrictTotal (ltb_pair ltA ltB).
Proof.
  split; unfold ltb_pair.
  - intros [a b]; simpl. now rewrite !ltb_irrefl.
  - intros [a1 b1] [a2 b2] [a3 b3]; simpl.
    rewrite !orb_true_iff, !andb_true_iff, !negb_true_iff.
    intros [H12|[H12 L12]] [H23|[H23 L23]].
    + left. eapply ltb_trans; eauto.
    + destruct (ltA a2 a3) eqn:E.
      * left. eapply ltb_trans; eauto.
      * left. now rewrite <- (ltb_total _ _ E H23).
    + destruct (ltA a1 a2) eqn:E.
      * left. eapply ltb_trans; eauto.
      * left. now rewrite (ltb_total _ _ E H12).
    + destruct (ltA a1 a2) eqn:E12.
      * destruct (ltA a2 a3) eqn:E23.
        -- left. eapply ltb_trans; eauto.
        -- left. now rewrite <- (ltb_total _ _ E23 H23).
      * pose proof (ltb_total _ _ E12 H12) as ->.
        destruct (ltA a2 a3) eqn:E23; [now left|].
        right. split; [assumption|]. eapply ltb_trans; eauto.
  - intros [a1 b1] [a2 b2]; simpl.
    rewrite !orb_false_iff, !andb_false_iff, !negb_false_iff.
    intros [H12 L12] [H21 L21].
    pose proof (ltb_total _ _ H12 H21) as ->.
    rewrite ltb_irrefl in L12, L21.
    destruct L12 as [?|L12]; [discriminate|].
    destruct L21 as [?|L21]; [discriminate|].
    now rewrite (ltb_total _ _ L12 L21).
Qed.

(** *** groupby *)

Section GroupByFacts.
Context {K R : Type} (ltb : K -> K -> bool) `{!StrictTotal ltb}.

Local Abbreviation lt := (fun a b : K => ltb a b = true).

Lemma assoc_below k (gs : list (K * list R)) :
  Forall (lt k) (map fst gs) -> assoc ltb k gs = None.
Proof.
  induction gs as [|[k' g] gs IH]; simpl; intros H; [reflexivity|].
  inversion H as [|? ? Hk Hrest]; subst.
  assert (E : keqb ltb k k' = false)
    by (apply keqb_neq; [assumption | now apply (ltb_neq ltb)]).
  rewrite E. auto.
Qed.

Lemma assoc_insert_group k r (gs : list (K * list R)) k' :
  StronglySorted lt (map fst gs) ->
  assoc ltb k' (insert_group ltb k r gs) =
  if keqb ltb k' k
  then Some (match assoc ltb k gs with Some g => g ++ [r] | None => [r] end)
  else assoc ltb k' gs.
Proof.
  induction gs as [|[k1 g1] gs IH]; simpl; intros Hs; [reflexivity|].
  inversion Hs as [|? ? Hs' Hall]; subst.
  destruct (ltb k k1) eqn:E1; simpl.
  - assert (Ek : keqb ltb k k1 = false)
      by (apply keqb_neq; [assumption | now apply (ltb_neq ltb)]).
    rewrite Ek, (assoc_below k gs); [reflexivity|].
    eapply Forall_impl; [|exact Hall].
    intros a Ha. simpl in *. eapply ltb_trans; eauto.
  - destruct (ltb k1 k) eqn:E2; simpl.
    + assert (Ek : keqb ltb k k1 = false).
      { apply keqb_neq; [assumption|]. intros ->.
        rewrite ltb_irrefl in E2. discriminate. }
      rewrite Ek, IH by assumption.
      destruct (keqb ltb k' k1) eqn:E3; [|reflexivity].
      apply keqb_eq in E3; [|assumption]. subst k'.
      assert (Ek' : keqb ltb k1 k = false)
        by (apply keqb_neq; [assumption | now apply (ltb_neq ltb)]).
      now rewrite Ek'.
    + pose proof (ltb_total _ _ E1 E2) as <-.
      rewrite (keqb_refl ltb). now destruct (keqb ltb k' k).
Qed.

Lemma insert_group_keys k r (gs : list (K * list R)) x :
  In x (map fst (insert_group ltb k r gs)) <-> x = k \/ In x (map fst gs).
Proof.
  induction gs as [|[k1 g1] gs IH]; simpl.
  - intuition.
  - destruct (ltb k k1) eqn:E1; simpl; [intuition|].
    destruct (ltb k1 k) eqn:E2; simpl.
    + rewrite IH. intuition.
    + pose proof (ltb_total _ _ E1 E2) as <-. intuition.
Qed.

Lemma insert_group_sorted k r (gs : list (K * list R)) :
  StronglySorted lt (map fst gs) ->
  StronglySorted lt (map fst (insert_group ltb k r gs)).
Proof.
  induction gs as [|[k1 g1] gs IH]; simpl; intros Hs.
  - repeat constructor.
  - inversion Hs as [|? ? Hs' Hall]; subst.
    destruct (ltb k k1) eqn:E1; simpl.
    + constructor; [assumption|]. constructor; [assumption|].
      eapply Forall_impl; [|exact Hall].
      intros a Ha. simpl in *. eapply ltb_trans; eauto.
    + destruct (ltb k1 k) eqn:E2; simpl.
      * constructor; [auto|].
        apply Forall_forall. intros x Hx.
        apply insert_group_keys in Hx as [->|Hx]; [assumption|].
        rewrite Forall_forall in Hall. auto.
      * now constructor.
Qed.

Lemma groupby_snoc (key : R -> option K) rows r :
  groupby ltb key (rows ++ [r]) =
  match key r with
  | Some k => insert_group ltb k r (groupby ltb key rows)
  | None => groupby ltb key rows
  end.
Proof. unfold groupby. now rewrite fold_left_app. Qed.

Lemma groupby_sorted (key : R -> option K) rows :
  StronglySorted lt (map fst (groupby ltb key rows)).
Proof.
  induction rows as [|r rows IH] using rev_ind.
  - constructor.
  - rewrite groupby_snoc. destruct (key r); [|assumption].
    now apply insert_group_sorted.
Qed.

Lemma group_of_snoc (key : R -> option K) k rows r :
  group_of ltb key k (rows ++ [r]) =
  group_of ltb key k rows ++
  (if match key r with Some k' => keqb ltb k' k | None => false end
   then [r] else []).
Proof. unfold group_of. now rewrite filter_app. Qed.

Lemma groupby_assoc (key : R -> option K) rows k :
  assoc ltb k (groupby ltb key rows) =
  match group_of ltb key k rows with
  | [] => None
  | g => Some g
  end.
Proof.
  induction rows as [|r rows IH] using rev_ind; [reflexivity|].
  rewrite groupby_snoc, group_of_snoc.
  destruct (key r) as [k'|].
  - rewrite assoc_insert_group by apply groupby_sorted.
    destruct (keqb ltb k k') eqn:E.
    + apply keqb_eq in E; [|assumption]. subst k'.
      rewrite (keqb_refl ltb), IH.
      destruct (group_of ltb key k rows); reflexivity.
    + assert (E' : keqb ltb k' k = false).
      { apply keqb_neq; [assumption|].
        apply keqb_neq in E; [congruence|assumption]. }
      now rewrite E', app_nil_r.
  - now rewrite app_nil_r.
Qed.

Lemma sorted_In_assoc (gs : list (K * list R)) k g :
  StronglySorted lt (map fst gs) ->
  In (k, g) gs <-> assoc ltb k gs = Some g.
Proof.
  induction gs as [|[k1 g1] gs IH]; simpl; intros Hs.
  - split; [tauto | discriminate].
  - inversion Hs as [|? ? Hs' Hall]; subst.
    destruct (keqb ltb k k1) eqn:E.
    + apply keqb_eq in E; [|assumption]. subst k1. split.
      * intros [H|H]; [congruence|].
        rewrite Forall_forall in Hall.
        assert (Hk : ltb k k = true)
          by (apply Hall; change k with (fst (k, g)); now apply in_map).
        rewrite ltb_irrefl in Hk. discriminate.
      * intros [= ->]. now left.
    + rewrite <- IH by assumption. split; [|tauto].
      intros [[= -> ->]|H]; [|assumption].
      rewrite (keqb_refl ltb) in E. discriminate.
Qed.

Lemma groupby_In (key : R -> option K) rows k g :
  In (k, g) (groupby ltb key rows) <->
  g = group_of ltb key k rows /\ g <> [].
Proof.
  rewrite sorted_In_assoc by apply groupby_sorted.
  rewrite groupby_assoc.
  destruct (group_of ltb key k rows) eqn:E; split.
  - discriminate.
  - intros [-> H]. congruence.
  - intros [= <-]. split; [reflexivity | discriminate].
  - intros [-> _]. reflexivity.
Qed.

Lemma group_of_nonempty (key : R -> option K) rows k :
  group_of ltb key k rows <> [] <-> exists r, In r rows /\ key r = Some k.
Proof.
  unfold group_of. split.
  - intros H.
    destruct (filter _ rows) as [|r g] eqn:E; [congruence|].
    assert (Hr : In r (r :: g)) by now left.
    rewrite <- E in Hr. apply filter_In in Hr as [Hr Hk].
    exists r. split; [assumption|].
    destruct (key r) as [k'|]; [|discriminate].
    apply keqb_eq in Hk; [congruence|assumption].
  - intros (r & Hr & Hk) E.
    assert (Hin : In r (filter (fun r => match key r with
                                         | Some k' => keqb ltb k' k
                                         | None => false
                                         end) rows)).
    { apply filter_In. split; [assumption|].
      rewrite Hk. apply (keqb_refl ltb). }
    rewrite E in Hin. destruct Hin.
Qed.

Lemma groupby_keys (key : R -> option K) rows k :
  In k (map fst (groupby ltb key rows)) <->
  exists r, In r rows /\ key r = Some k.
Proof.
  rewrite <- group_of_nonempty. rewrite in_map_iff. split.
  - intros ([k' g] & <- & Hin). simpl.
    apply groupby_In in Hin as [-> H]. assumption.
  - intros H. exists (k, group_of ltb key k rows). split; [reflexivity|].
    apply groupby_In. tauto.
Qed.

Lemma sorted_NoDup (l : list K) : StronglySorted lt l -> NoDup l.
Proof.
  induction 1 as [|a l Hs IH Hall]; constructor; [|assumption].
  intros Hin. rewrite Forall_forall in Hall.
  specialize (Hall _ Hin). simpl in Hall.
  rewrite ltb_irrefl in Hall. discriminate.
Qed.

(** One group per distinct key. *)
Lemma groupby_length (key : R -> option K) rows
  (dec : forall a b : K, {a = b} + {a <> b}) (keys : list K) :
  (forall k, In k keys <-> exists r, In r rows /\ key r = Some k) ->
  List.length (groupby ltb key rows) = List.length (nodup dec keys).
Proof.
  intros Hkeys.
  rewrite <- (length_map fst (groupby ltb key rows)).
  apply Permutation_length, NoDup_Permutation.
  - apply sorted_NoDup, groupby_sorted.
  - apply NoDup_nodup.
  - intros k. rewrite groupby_keys, nodup_In, Hkeys. reflexivity.
Qed.
End GroupByFacts.

(** *** Activity bins *)

Lemma Qle_bool_false x y : Qle_bool x y = false -> (y < x)%Q.
Proof.
  intros H. apply Qnot_le_lt. intros Hle.
  apply Qle_bool_iff in Hle. congruence.
Qed.

Ltac edges :=
  repeat match goal with
    | H : Qle_bool _ _ = true |- _ => apply Qle_bool_iff in H
    | H : Qle_bool _ _ = false |- _ => apply Qle_bool_false in H
    end.

Lemma cut_code_activity x :
  cut_code activity_edges x =
  if Qle_bool x 0 then None
  else if Qle_bool x 2 then Some 0%nat
  else if Qle_bool x 4 then Some 1%nat
  else if Qle_bool x 6 then Some 2%nat
  else if Qle_bool x 24 then Some 3%nat
  else None.
Proof.
  unfold cut_code, activity_edges. cbn [searchsorted_left List.length].
  repeat (match goal with |- context [Qle_bool x ?b] => destruct (Qle_bool x b) end;
          try reflexivity).
Qed.

Lemma Activity_Bins_cases r :
  let x := Physical_Activity_Hours r in
  (Activity_Bins r = Some "0-2h" <-> 0 < x <= 2)%Q /\
  (Activity_Bins r = Some "2-4h" <-> 2 < x <= 4)%Q /\
  (Activity_Bins r = Some "4-6h" <-> 4 < x <= 6)%Q /\
  (Activity_Bins r = Some "6h+" <-> 6 < x <= 24)%Q /\
  (Activity_Bins r = None <-> x <= 0 \/ 24 < x)%Q.
Proof.
  intros x. unfold Activity_Bins, pd_cut. fold x.
  rewrite cut_code_activity.
  destruct (Qle_bool x 0) eqn:E0; [|destruct (Qle_bool x 2) eqn:E2;
    [|destruct (Qle_bool x 4) eqn:E4; [|destruct (Qle_bool x 6) eqn:E6;
      [|destruct (Qle_bool x 24) eqn:E24]]]];
    edges; cbn [option_map nth activity_labels];
    repeat split; intros; try discriminate; try lra.
Qed.

(** *** The filter *)

Lemma isin_In x values : isin x values = true <-> In x values.
Proof.
  induction values as [|v vs IH]; simpl.
  - split; [discriminate | tauto].
  - rewrite orb_true_iff, String.eqb_eq, IH. split; intros [H|H]; auto.
Qed.

Lemma passes_spec c r :
  passes c r = true <->
  In (Country r) (countries c) /\ In (Gender r) (genders c) /\
  fst (age_range c) <= Age r <= snd (age_range c).
Proof.
  unfold passes. rewrite !andb_true_iff, !isin_In, Z.geb_le, Z.leb_le. tauto.
Qed.


(** *** Sizes of groups *)

Section GroupBySizes.
Context {K R : Type} (ltb : K -> K -> bool).

Lemma insert_group_rows k (r : R) (gs : list (K * list R)) :
  List.length (List.concat (map snd (insert_group ltb k r gs))) =
  S (List.length (List.concat (map snd gs))).
Proof.
  induction gs as [|[k1 g1] gs IH]; [reflexivity|].
  cbn [insert_group].
  destruct (ltb k k1); [reflexivity|].
  destruct (ltb k1 k); cbn [map snd List.concat]; rewrite !length_app.
  - rewrite IH. lia.
  - cbn [List.length]. lia.
Qed.

(** The groups hold as many rows as have a key. *)
Lemma groupby_rows (key : R -> option K) rows :
  List.length (List.concat (map snd (groupby ltb key rows))) =
  List.length (filter (fun r => match key r with Some _ => true | None => false end) rows).
Proof.
  induction rows as [|r rows IH] using rev_ind; [reflexivity|].
  unfold groupby in *. rewrite fold_left_app, filter_app, length_app.
  cbn [fold_left filter].
  destruct (key r); cbn [List.length].
  - rewrite insert_group_rows, IH. lia.
  - rewrite IH. lia.
Qed.
End GroupBySizes.

Lemma in_activity_range_spec r :
  in_activity_range r = true <->
  (0 < Physical_Activity_Hours r <= 24)%Q.
Proof.
  unfold in_activity_range.
  rewrite andb_true_iff, negb_true_iff, Qle_bool_iff. split.
  - intros [H1 H2]. apply Qle_bool_false in H1. tauto.
  - intros [H1 H2]. split; [|assumption].
    destruct (Qle_bool (Physical_Activity_Hours r) 0) eqn:E; [|reflexivity].
    apply Qle_bool_iff in E. lra.
Qed.

Lemma cut_code_in_range r :
  match cut_code activity_edges (Physical_Activity_Hours r) with
  | Some _ => true
  | None => false
  end = in_activity_range r.
Proof.
  rewrite cut_code_activity. unfold in_activity_range.
  set (x := Physical_Activity_Hours r).
  destruct (Qle_bool x 0) eqn:E0; [|destruct (Qle_bool x 2) eqn:E2;
    [|destruct (Qle_bool x 4) eqn:E4; [|destruct (Qle_bool x 6) eqn:E6;
      [|destruct (Qle_bool x 24) eqn:E24]]]];
    cbn [negb andb]; try reflexivity;
    edges; symmetry; apply Qle_bool_iff; lra.
Qed.

(** *** Means *)

Lemma mean_arith_mean (l : list Q) : l <> [] -> mean l = Some (arith_mean l).
Proof. destruct l; [congruence | reflexivity]. Qed.

(** *** Aggregates per group *)

Section GroupByAggregate.
Context {K R V : Type} (ltb : K -> K -> bool) `{!StrictTotal ltb}.

(** An aggregate per group is the aggregate of the rows of each key. *)
Lemma groupby_aggregate (F : K -> list R -> V) (key : R -> option K) rows :
  map (fun kg => F (fst kg) (snd kg)) (groupby ltb key rows) =
  map (fun k => F k (group_of ltb key k rows)) (map fst (groupby ltb key rows)).
Proof.
  rewrite map_map. apply map_ext_in. intros [k g] Hin. cbn [fst snd].
  apply groupby_In in Hin as [-> _]; [reflexivity | assumption].
Qed.
End GroupByAggregate.

Lemma keqb_string a b : keqb String.ltb a b = String.eqb a b.
Proof.
  destruct (String.eqb_spec a b) as [E|E].
  - apply keqb_eq; [typeclasses eauto | assumption].
  - apply keqb_neq; [typeclasses eauto | assumption].
Qed.

Lemma keqb_Z a b : keqb Z.ltb a b = Z.eqb a b.
Proof.
  destruct (Z.eqb_spec a b) as [E|E].
  - apply keqb_eq; [typeclasses eauto | assumption].
  - apply keqb_neq; [typeclasses eauto | assumption].
Qed.

Lemma group_of_Country c fd :
  group_of String.ltb (fun r => Some (Country r)) c fd =
  filter (fun r => String.eqb (Country r) c) fd.
Proof. apply filter_ext. intros r. apply keqb_string. Qed.

Lemma group_of_Age a fd :
  group_of Z.ltb (fun r => Some (Age r)) a fd =
  filter (fun r => Z.eqb (Age r) a) fd.
Proof. apply filter_ext. intros r. apply keqb_Z. Qed.

Lemma map_nonempty {A B : Type} (f : A -> B) l : l <> [] -> map f l <> [].
Proof. destruct l; [congruence | discriminate]. Qed.

Lemma country_avg_eq fd :
  country_avg fd =
  map (fun c => (c, Some (arith_mean
                            (map Coffee_Intake
                                 (filter (fun r => String.eqb (Country r) c) fd)))))
      (map fst (groupby String.ltb (fun r => Some (Country r)) fd)).
Proof.
  unfold country_avg.
  rewrite (groupby_aggregate String.ltb
             (fun k g => (k, mean (map Coffee_Intake g)))).
  apply map_ext_in. intros c Hc.
  rewrite group_of_Country. f_equal. apply mean_arith_mean, map_nonempty.
  rewrite <- group_of_Country.
  apply group_of_nonempty; [typeclasses eauto|].
  apply groupby_keys in Hc; [exact Hc | typeclasses eauto].
Qed.

Lemma keys_of_column {K : Type} (col : record -> K) (fd : DataFrame) k :
  In k (map col fd) <-> exists r, In r fd /\ Some (col r) = Some k.
Proof.
  rewrite in_map_iff. split; intros (r & H1 & H2); exists r.
  - split; [assumption | congruence].
  - split; [congruence | assumption].
Qed.

(** ** Properties of the dashboard *)

(** C1: a row is in the filtered view exactly when it is a row of the
    dataset whose country is among the selected countries, whose gender is
    among the selected genders and whose age lies in the inclusive range. *)
Theorem filtered_data_iff (data : DataFrame) (c : FilterCriteria) (r : record) :
  In r (filtered_data data c) <->
  In r data /\
  In (Country r) (countries c) /\
  In (Gender r) (genders c) /\
  fst (age_range c) <= Age r <= snd (age_range c).
Proof.
  unfold filtered_data. rewrite filter_In, passes_spec. tauto.
Qed.
(** C9: [load_data] keeps exactly the rows of the CSV whose gender is
    "Male" or "Female"; so every row of the loaded dataset, and of every
    filtered view of it, has one of the two genders. *)
Theorem load_data_gender (csv : DataFrame) (c : FilterCriteria) :
  (forall r, In r (load_data csv) <->
             In r csv /\ (Gender r = "Male" \/ Gender r = "Female")) /\
  Forall (fun r => Gender r = "Male" \/ Gender r = "Female") (load_data csv) /\
  Forall (fun r => Gender r = "Male" \/ Gender r = "Female")
         (filtered_data (load_data csv) c).
Proof.
  assert (H : forall r, In r (load_data csv) <->
                        In r csv /\ (Gender r = "Male" \/ Gender r = "Female")).
  { intros r. unfold load_data. rewrite filter_In, isin_In. simpl. intuition congruence. }
  split; [exact H|]. split; apply Forall_forall; intros r Hr.
  - now apply H in Hr.
  - unfold filtered_data in Hr. apply filter_In in Hr as [Hr _].
    now apply H in Hr.
Qed.

(** C2, as stated, fails: a row with exactly 6.0 activity hours is not
    placed in "6h+". *)
Lemma Activity_Bins_six_not_6h_plus :
  ~ (forall r : record,
        (Physical_Activity_Hours r == 6)%Q -> Activity_Bins r = Some "6h+").
Proof.
  intros H. specialize (H (sample_row "USA" "Male" 30 2 6) (Qeq_refl _)).
  vm_compute in H. discriminate.
Qed.

(** C2, amended: the bins are left-open and right-closed, (0,2], (2,4],
    (4,6] and (6,24]; 3.5 hours fall in "2-4h" and exactly 6.0 hours in
    "4-6h". *)
Theorem Activity_Bins_right_closed (r : record) :
  let x := Physical_Activity_Hours r in
  ((x == 7 # 2)%Q -> Activity_Bins r = Some "2-4h") /\
  ((x == 6)%Q -> Activity_Bins r = Some "4-6h") /\
  (Activity_Bins r = Some "0-2h" <-> 0 < x <= 2)%Q /\
  (Activity_Bins r = Some "2-4h" <-> 2 < x <= 4)%Q /\
  (Activity_Bins r = Some "4-6h" <-> 4 < x <= 6)%Q /\
  (Activity_Bins r = Some "6h+" <-> 6 < x <= 24)%Q /\
  (Activity_Bins r = None <-> x <= 0 \/ 24 < x)%Q.
Proof.
  intros x. destruct (Activity_Bins_cases r) as (H0 & H2 & H4 & H6 & HN).
  fold x in H0, H2, H4, H6, HN.
  repeat split; try tauto.
  - intros E. apply H2. lra.
  - intros E. apply H4. lra.
Qed.

Lemma Activity_Bins_right_closed_witness :
  Activity_Bins (sample_row "USA" "Male" 30 2 (7 # 2)) = Some "2-4h" /\
  Activity_Bins (sample_row "USA" "Female" 41 3 6) = Some "4-6h".
Proof.
  split.
  - refine (proj1 (Activity_Bins_right_closed
                     (sample_row "USA" "Male" 30 2 (7 # 2))) _).
    reflexivity.
  - refine (proj1 (proj2 (Activity_Bins_right_closed
                            (sample_row "USA" "Female" 41 3 6))) _).
    reflexivity.
Defined.

(** C10: in the boxplot view by activity hours, the rows of every group
    are rows of the view with hours in (0, 24]; a row with hours at or below
    0 or above 24 has no bin; and the groups together hold only the rows in
    range, so they need not cover the view. *)
Theorem habits_activity_drops_unbinned (fd : DataFrame) :
  Forall (fun kg =>
            Forall (fun r => In r fd /\ (0 < Physical_Activity_Hours r <= 24)%Q)
                   (snd kg))
         (habits_activity fd) /\
  (forall r, Activity_Bins r = None <->
             (Physical_Activity_Hours r <= 0 \/ 24 < Physical_Activity_Hours r)%Q) /\
  List.length (List.concat (map snd (habits Habit_Physical_Activity_Hours fd))) =
  List.length (filter in_activity_range fd) /\
  (List.length (filter in_activity_range fd) <= List.length fd)%nat.
Proof.
  split; [|split; [|split]].
  - apply Forall_forall. intros [k g] Hin. cbn [snd].
    apply groupby_In in Hin as [-> _]; [|typeclasses eauto].
    apply Forall_forall. intros r Hr. unfold group_of in Hr.
    apply filter_In in Hr as [Hr Hk]. split; [assumption|].
    apply in_activity_range_spec. rewrite <- cut_code_in_range.
    destruct (cut_code activity_edges (Physical_Activity_Hours r));
      [reflexivity | discriminate].
  - intros r. apply (Activity_Bins_cases r).
  - unfold habits, habits_activity.
    rewrite map_map. cbn [snd].
    rewrite <- (filter_ext _ _ cut_code_in_range).
    rewrite (filter_ext
               (fun r => match cut_code activity_edges (Physical_Activity_Hours r)
                         with Some _ => true | None => false end)
               (fun r => match option_map (fun code => (code, Gender r))
                                 (cut_code activity_edges (Physical_Activity_Hours r))
                         with Some _ => true | None => false end)).
    2: { intros r. now destruct (cut_code activity_edges (Physical_Activity_Hours r)). }
    rewrite <- (groupby_rows (ltb_pair Nat.ltb String.ltb)).
    generalize (groupby (ltb_pair Nat.ltb String.ltb)
                  (fun r => option_map (fun code => (code, Gender r))
                              (cut_code activity_edges (Physical_Activity_Hours r)))
                  fd).
    intros gs. induction gs as [|[k g] gs IH]; [reflexivity|].
    cbn [map List.concat snd]. rewrite !length_app, length_map, IH. reflexivity.
  - apply filter_length_le.
Qed.

(** A row with no activity at all is left out of the boxplot. *)
Example habits_activity_zero_hours :
  Activity_Bins (sample_row "USA" "Male" 30 2 0) = None /\
  habits Habit_Physical_Activity_Hours [sample_row "USA" "Male" 30 2 0] = [].
Proof. split; reflexivity. Qed.
(** C3: when the filtered view is empty the script shows the warning and
    stops, so nothing of the five tabs is computed or shown; when it is not
    empty no warning is shown: the run shows the KPI metrics and the scatter
    chart and ends in the exception of tab 3.  Criteria with no country
    selected always end in the warning. *)
Theorem app_empty_result (data : DataFrame) (c : FilterCriteria)
  (hm : health_metric) (hb : habit) :
  match filtered_data data c with
  | [] => app data c hm hb = ([st_warning no_data_warning], None)
  | fd =>
      existsb is_warning (fst (app data c hm hb)) = false /\
      app data c hm hb
      = (fst (tab1 fd) ++ fst (tab2 hm fd) ++ [uncaught "TypeError"], None)
  end /\
  app data (mkCriteria [] (genders c) (age_range c)) hm hb
  = ([st_warning no_data_warning], None).
Proof.
  split.
  - unfold app. destruct (filtered_data data c) as [|r fd]; [reflexivity|].
    split; reflexivity.
  - unfold app.
    assert (E : filtered_data data (mkCriteria [] (genders c) (age_range c)) = []).
    { unfold filtered_data. induction data as [|r data IH]; [reflexivity|].
      cbn [filter]. unfold passes at 1. cbn [countries isin andb]. exact IH. }
    rewrite E. reflexivity.
Qed.

(** C8: the scatter data has one point per row of the view, in order; the
    point of a row holds the pair of its coffee intake and its value in the
    chosen metric column, the label "country / occupation", the size
    max(5, age/5), and a colour that depends on the gender alone: one for
    "Male", another for "Female". *)
Theorem scatter_data_pointwise (hm : health_metric) (fd : DataFrame) :
  List.length (scatter_data hm fd) = List.length fd /\
  Forall2
    (fun row p =>
       value p = (Coffee_Intake row, column hm row) /\
       name p = (Country row ++ " / " ++ Occupation row)%string /\
       (symbolSize p == Qmax 5 (inject_Z (Age row) / 5))%Q /\
       itemStyle_color p =
         (if String.eqb (Gender row) "Male" then "#FF5722" else "#2196F3") /\
       (Gender row = "Male" /\ itemStyle_color p = "#FF5722" \/
        Gender row = "Female" /\ itemStyle_color p = "#2196F3" \/
        Gender row <> "Male" /\ Gender row <> "Female"))
    fd (scatter_data hm fd) /\
  (forall row,
      column Metric_Sleep_Hours row = Some (Sleep_Hours row) /\
      column Metric_Heart_Rate row = Some (Heart_Rate row) /\
      column Metric_BMI row = Some (BMI row) /\
      column Metric_Stress_Index row = dict_lookup stress_mapping (Stress_Level row)) /\
  dict_lookup stress_mapping "Low" = Some 1%Q /\
  dict_lookup stress_mapping "Medium" = Some 2%Q /\
  dict_lookup stress_mapping "High" = Some 3%Q.
Proof.
  split; [apply length_map|].
  split; [|repeat split].
  induction fd as [|row fd IH]; cbn [scatter_data map]; constructor;
    [|exact IH].
  cbn [value name symbolSize itemStyle_color].
  repeat split.
  - unfold py_max.
    destruct (Qle_bool (inject_Z (Age row) / 5) 5) eqn:E.
    + apply Qle_bool_iff in E. symmetry. now apply Q.max_l.
    + apply Qle_bool_false in E. symmetry. apply Q.max_r. lra.
  - destruct (String.eqb_spec (Gender row) "Male") as [E|E]; [tauto|].
    destruct (String.eqb_spec (Gender row) "Female") as [E'|E']; tauto.
Qed.

Lemma py_or_cases (x : num) (d : Q) :
  match x with
  | None => py_or x d = None
  | Some q => (q == 0)%Q /\ py_or x d = Some d \/
              ~ (q == 0)%Q /\ py_or x d = Some q
  end.
Proof.
  destruct x as [q|]; [|reflexivity]. unfold py_or.
  destruct (Qeq_bool q 0) eqn:E.
  - left. split; [now apply Qeq_bool_iff | reflexivity].
  - right. split; [|reflexivity]. intros H.
    apply Qeq_bool_iff in H. congruence.
Qed.

(** C6, at a view where nobody drinks coffee: the only per-country mean is
    0, so the observed minimum and maximum are both 0, yet the upper bound
    comes out as 1, because [or] takes the float 0.0 for a missing value.
    And where there is no country at all the minimum and maximum are NaN,
    which [or] does not replace: the bounds are NaN, not 0 and 1. *)
Theorem max_val_zero_intake :
  let fd := [sample_row "USA" "Male" 30 0 1; sample_row "USA" "Female" 41 0 3] in
  data_list fd = [("United States", Some 0%Q)] /\
  (exists lo, series_min (map snd (country_avg fd)) = Some lo /\ (lo == 0)%Q) /\
  (exists hi, series_max (map snd (country_avg fd)) = Some hi /\ (hi == 0)%Q) /\
  min_val fd = Some 0%Q /\
  max_val fd = Some 1%Q /\
  country_avg [] = [] /\
  min_val [] = None /\
  max_val [] = None.
Proof.
  cbv zeta. repeat split; try reflexivity.
  - exists (0 # 2)%Q. split; reflexivity.
  - exists (0 # 2)%Q. split; reflexivity.
Qed.

(** ** Further lemmas and properties *)

(** *** Filters *)

Lemma filter_comm {A : Type} (f g : A -> bool) (l : list A) :
  filter f (filter g l) = filter g (filter f l).
Proof.
  induction l as [|a l IH]; [reflexivity|]. cbn [filter].
  destruct (f a) eqn:Ef, (g a) eqn:Eg; cbn [filter];
    rewrite ?Ef, ?Eg, IH; reflexivity.
Qed.

Lemma filter_idem {A : Type} (f : A -> bool) (l : list A) :
  filter f (filter f l) = filter f l.
Proof.
  induction l as [|a l IH]; [reflexivity|]. cbn [filter].
  destruct (f a) eqn:Ef; cbn [filter]; rewrite ?Ef, IH; reflexivity.
Qed.

Lemma filter_length_mono {A : Type} (f g : A -> bool) (l : list A) :
  (forall a, In a l -> f a = true -> g a = true) ->
  (List.length (filter f l) <= List.length (filter g l))%nat.
Proof.
  induction l as [|a l IH]; intros H; [reflexivity|]. cbn [filter].
  assert (IH' : (List.length (filter f l) <= List.length (filter g l))%nat).
  { apply IH. intros b Hb. apply H. now right. }
  destruct (f a) eqn:Ef.
  - rewrite (H a (or_introl eq_refl) Ef). cbn [List.length]. lia.
  - destruct (g a); cbn [List.length]; lia.
Qed.

Lemma narrower_passes c c' r :
  narrower c c' -> passes c r = true -> passes c' r = true.
Proof.
  intros (Hc & Hg & Hlo & Hhi). rewrite !passes_spec.
  intros (H1 & H2 & H3). repeat split; [auto | auto | lia | lia].
Qed.

(** *** The side bar *)

Lemma unique_from_In seen l x :
  In x (unique_from seen l) <-> In x l /\ ~ In x seen.
Proof.
  revert seen. induction l as [|y l IH]; intros seen; cbn [unique_from].
  - simpl. tauto.
  - destruct (isin y seen) eqn:E.
    + apply isin_In in E. rewrite IH. simpl. split.
      * tauto.
      * intros [[->|H] Hn]; [contradiction | tauto].
    + assert (Hy : ~ In y seen).
      { intros H. apply isin_In in H. congruence. }
      simpl. rewrite IH. simpl.
      destruct (string_dec y x) as [->|Hne]; [tauto|]. tauto.
Qed.

Lemma unique_from_NoDup seen l : NoDup (unique_from seen l).
Proof.
  revert seen. induction l as [|y l IH]; intros seen; cbn [unique_from].
  - constructor.
  - destruct (isin y seen); [apply IH|].
    constructor; [|apply IH].
    rewrite unique_from_In. simpl. tauto.
Qed.

Lemma unique_In l x : In x (unique l) <-> In x l.
Proof. unfold unique. rewrite unique_from_In. simpl. tauto. Qed.

Lemma unique_NoDup l : NoDup (unique l).
Proof. apply unique_from_NoDup. Qed.

Lemma fold_left_Zmin l a :
  In (fold_left Z.min l a) (a :: l) /\
  Forall (fun b => fold_left Z.min l a <= b) (a :: l).
Proof.
  revert a. induction l as [|b l IH]; intros a; cbn [fold_left].
  - split; [now left | repeat constructor; lia].
  - destruct (IH (Z.min a b)) as [Hin Hall].
    inversion Hall as [|? ? Hm Hl]; subst. split.
    + destruct Hin as [E|Hin].
      * rewrite <- E. destruct (Z.min_spec a b) as [[_ ->]|[_ ->]];
          [now left | right; now left].
      * right. now right.
    + constructor; [lia|]. constructor; [lia | exact Hl].
Qed.

Lemma fold_left_Zmax l a :
  In (fold_left Z.max l a) (a :: l) /\
  Forall (fun b => b <= fold_left Z.max l a) (a :: l).
Proof.
  revert a. induction l as [|b l IH]; intros a; cbn [fold_left].
  - split; [now left | repeat constructor; lia].
  - destruct (IH (Z.max a b)) as [Hin Hall].
    inversion Hall as [|? ? Hm Hl]; subst. split.
    + destruct Hin as [E|Hin].
      * rewrite <- E. destruct (Z.max_spec a b) as [[_ ->]|[_ ->]];
          [right; now left | now left].
      * right. now right.
    + constructor; [lia|]. constructor; [lia | exact Hl].
Qed.

Lemma sidebar_Some data w :
  sidebar data = Some w ->
  data <> [] /\
  country_options w = unique (map Country data) /\
  gender_options w = unique (map Gender data) /\
  slider_default w = (20, 60) /\
  In (slider_min w) (map Age data) /\
  In (slider_max w) (map Age data) /\
  Forall (fun a => slider_min w <= a <= slider_max w) (map Age data).
Proof.
  unfold sidebar, Age_min, Age_max.
  destruct data as [|r data]; [discriminate|]. cbn [map].
  intros [= <-]. cbn [country_options gender_options slider_min slider_max
                      slider_default].
  destruct (fold_left_Zmin (map Age data) (Age r)) as [Hmin Hle].
  destruct (fold_left_Zmax (map Age data) (Age r)) as [Hmax Hge].
  repeat split; try assumption; try discriminate.
  rewrite Forall_forall in *. intros a Ha. split; auto.
Qed.

(** X1: filtering a view again with the same criteria changes nothing,
    filtering with two sets of criteria gives the same view in either
    order, and filtering the loaded table is loading the filtered one. *)
Theorem filtered_data_compose (data : DataFrame) (c1 c2 : FilterCriteria) :
  filtered_data (filtered_data data c1) c1 = filtered_data data c1 /\
  filtered_data (filtered_data data c1) c2
  = filtered_data (filtered_data data c2) c1 /\
  filtered_data (load_data data) c1 = load_data (filtered_data data c1).
Proof.
  unfold filtered_data, load_data. split; [apply filter_idem|].
  split; apply filter_comm.
Qed.

(** X2: criteria that select no more (fewer countries, fewer genders, a
    narrower age range) give a view that holds no other rows and no more
    rows. *)
Theorem filtered_data_narrower (data : DataFrame) (c c' : FilterCriteria) :
  narrower c c' ->
  incl (filtered_data data c) (filtered_data data c') /\
  (List.length (filtered_data data c) <= List.length (filtered_data data c')
   <= List.length data)%nat.
Proof.
  intros Hn. unfold filtered_data. split; [|split].
  - intros r Hr. apply filter_In in Hr as [Hr Hp]. apply filter_In.
    split; [assumption|]. now apply (narrower_passes c c').
  - apply filter_length_mono. intros r _. now apply narrower_passes.
  - apply filter_length_le.
Qed.

Lemma filtered_data_narrower_witness :
  narrower (mkCriteria ["US"] ["Male"] (20, 30)) fixture_criteria /\
  incl (filtered_data fixture (mkCriteria ["US"] ["Male"] (20, 30)))
       (filtered_data fixture fixture_criteria) /\
  (List.length (filtered_data fixture (mkCriteria ["US"] ["Male"] (20, 30)%Z))
   <= List.length (filtered_data fixture fixture_criteria)
   <= List.length fixture)%nat.
Proof.
  assert (H : narrower (mkCriteria ["US"] ["Male"] (20, 30)) fixture_criteria).
  { unfold narrower. cbn. repeat split; try lia.
    - intros x [<-|[]]. now left.
    - intros x [<-|[]]. now left. }
  split; [exact H|].
  exact (filtered_data_narrower fixture _ _ H).
Defined.

(** X3: an age range whose lower end is above its upper end, or an empty
    selection of genders, leaves no row: the script shows the warning and
    stops. *)
Theorem app_unsatisfiable_criteria (data : DataFrame) (c : FilterCriteria)
  (hm : health_metric) (hb : habit) :
  snd (age_range c) < fst (age_range c) \/ genders c = [] ->
  filtered_data data c = [] /\
  app data c hm hb = ([st_warning no_data_warning], None).
Proof.
  intros H.
  assert (E : filtered_data data c = []).
  { unfold filtered_data. induction data as [|r data IH]; [reflexivity|].
    cbn [filter]. destruct (passes c r) eqn:P; [|exact IH].
    apply passes_spec in P. destruct P as (_ & Hg & Ha).
    destruct H as [H|H]; [lia|]. rewrite H in Hg. destruct Hg. }
  split; [exact E|]. unfold app. rewrite E. reflexivity.
Qed.

Lemma app_unsatisfiable_criteria_witness :
  (snd (60, 20) < fst (60, 20) \/ ["Male"; "Female"] = @nil string) /\
  filtered_data fixture (mkCriteria ["US"; "UK"] ["Male"; "Female"] (60, 20)) = [] /\
  app fixture (mkCriteria ["US"; "UK"] ["Male"; "Female"] (60, 20))
      Metric_BMI Habit_Smoking
  = ([st_warning no_data_warning], None).
Proof.
  split; [left; cbn; lia|].
  apply (app_unsatisfiable_criteria fixture
           (mkCriteria ["US"; "UK"] ["Male"; "Female"] (60, 20))).
  left. cbn. lia.
Defined.



(** X5: with the side bar left at its defaults (every country, every
    gender, ages 20 to 60) the view is the rows of the table aged 20 to
    60. *)
Theorem filtered_data_default_criteria (data : DataFrame) (w : sidebar_widgets) :
  sidebar data = Some w ->
  filtered_data data (default_criteria w)
  = filter (fun r => (20 <=? Age r) && (Age r <=? 60)) data.
Proof.
  intros Hw.
  destruct (sidebar_Some data w Hw) as (_ & Hc & Hg & Hd & _).
  unfold filtered_data. apply filter_ext_in. intros r Hr.
  unfold passes, default_criteria. cbn [countries genders age_range].
  rewrite Hc, Hg, Hd. cbn [fst snd].
  assert (E1 : isin (Country r) (unique (map Country data)) = true)
    by (apply isin_In, unique_In; now apply in_map).
  assert (E2 : isin (Gender r) (unique (map Gender data)) = true)
    by (apply isin_In, unique_In; now apply in_map).
  rewrite E1, E2. cbn [andb]. f_equal. apply Z.geb_leb.
Qed.

Lemma filtered_data_default_criteria_witness :
  exists w, sidebar fixture = Some w /\
            filtered_data fixture (default_criteria w)
            = filter (fun r => (20 <=? Age r) && (Age r <=? 60)) fixture.
Proof.
  eexists. split; [reflexivity|].
  exact (filtered_data_default_criteria fixture _ eq_refl).
Defined.

(** X6: on a loaded table the gender selector offers at most the two
    options "Male" and "Female". *)
Theorem gender_options_loaded (csv : DataFrame) (w : sidebar_widgets) :
  sidebar (load_data csv) = Some w ->
  incl (gender_options w) ["Male"; "Female"] /\
  (List.length (gender_options w) <= 2)%nat.
Proof.
  intros Hw.
  destruct (sidebar_Some _ w Hw) as (_ & _ & Hg & _).
  assert (Hincl : incl (gender_options w) ["Male"; "Female"]).
  { rewrite Hg. intros g Hin. apply unique_In, in_map_iff in Hin.
    destruct Hin as (r & <- & Hr). unfold load_data in Hr.
    apply filter_In in Hr as [_ Hr]. now apply isin_In in Hr. }
  split; [exact Hincl|].
  apply (NoDup_incl_length (l' := ["Male"; "Female"])); [|exact Hincl].
  rewrite Hg. apply unique_NoDup.
Qed.

Lemma gender_options_loaded_witness :
  exists w, sidebar (load_data fixture) = Some w /\
            incl (gender_options w) ["Male"; "Female"] /\
            (List.length (gender_options w) <= 2)%nat.
Proof.
  eexists. split; [reflexivity|].
  exact (gender_options_loaded fixture _ eq_refl).
Defined.

(** *** The stress index *)

Lemma Stress_Index_cases r :
  Stress_Index r =
  if valid_stressb r then Some (stress_ordinal (Stress_Level r)) else None.
Proof.
  unfold valid_stressb, Stress_Index, stress_ordinal.
  cbn [isin stress_mapping dict_lookup].
  destruct (String.eqb (Stress_Level r) "Low"); [reflexivity|].
  destruct (String.eqb (Stress_Level r) "Medium"); [reflexivity|].
  destruct (String.eqb (Stress_Level r) "High"); reflexivity.
Qed.




(** X10: on a view of the loaded table every scatter point is coloured
    "#FF5722" for a "Male" row and "#2196F3" for a "Female" row; no third
    case is left. *)
Theorem scatter_data_colour_loaded (csv : DataFrame) (c : FilterCriteria)
  (hm : health_metric) :
  Forall2
    (fun row p =>
       Gender row = "Male" /\ itemStyle_color p = "#FF5722" \/
       Gender row = "Female" /\ itemStyle_color p = "#2196F3")
    (filtered_data (load_data csv) c)
    (scatter_data hm (filtered_data (load_data csv) c)).
Proof.
  assert (H : Forall (fun r => Gender r = "Male" \/ Gender r = "Female")
                     (filtered_data (load_data csv) c)).
  { apply Forall_forall. intros r Hr. unfold filtered_data, load_data in Hr.
    apply filter_In in Hr as [Hr _]. apply filter_In in Hr as [_ Hr].
    apply isin_In in Hr. simpl in Hr. intuition congruence. }
  induction H as [|row fd Hrow _ IH]; cbn [scatter_data map]; constructor;
    [|exact IH].
  cbn [itemStyle_color]. destruct Hrow as [-> | ->]; [left | right];
    split; reflexivity.
Qed.

(** X11: the second coordinate of a scatter point is NaN only when the
    chosen metric is the stress index and the row's stress level is none of
    "Low", "Medium" and "High". *)
Theorem scatter_data_nan (hm : health_metric) (fd : DataFrame) :
  Forall2
    (fun row p =>
       fst (value p) = Coffee_Intake row /\
       (snd (value p) = None <->
        hm = Metric_Stress_Index /\ valid_stressb row = false))
    fd (scatter_data hm fd).
Proof.
  induction fd as [|row fd IH]; cbn [scatter_data map]; constructor;
    [|exact IH].
  cbn [value fst snd]. split; [reflexivity|].
  destruct hm; cbn [column]; try (split; [discriminate | intros [? _]; discriminate]).
  rewrite Stress_Index_cases. destruct (valid_stressb row).
  - split; [discriminate | intros [_ ?]; discriminate].
  - split; auto.
Qed.

(** *** The map *)

Lemma dropna_map_Some (l : list Q) : dropna (map Some l) = l.
Proof.
  induction l as [|x l IH]; [reflexivity|].
  cbn [map dropna flat_map]. fold (dropna (map Some l)). now rewrite IH.
Qed.

Lemma fold_left_Qmin l a :
  In (fold_left Qmin l a) (a :: l) /\
  Forall (fun b => fold_left Qmin l a <= b)%Q (a :: l).
Proof.
  revert a. induction l as [|b l IH]; intros a; cbn [fold_left].
  - split; [now left | repeat constructor; apply Qle_refl].
  - destruct (IH (Qmin a b)) as [Hin Hall].
    inversion Hall as [|? ? Hm Hl]; subst.
    pose proof (Q.le_min_l a b) as Ha. pose proof (Q.le_min_r a b) as Hb.
    split.
    + destruct Hin as [E|Hin]; [|right; now right].
      rewrite <- E. unfold Qmin, GenericMinMax.gmin.
      destruct (a ?= b)%Q; [now left | now left | right; now left].
    + constructor; [eapply Qle_trans; eauto|].
      constructor; [eapply Qle_trans; eauto | exact Hl].
Qed.

Lemma fold_left_Qmax l a :
  In (fold_left Qmax l a) (a :: l) /\
  Forall (fun b => b <= fold_left Qmax l a)%Q (a :: l).
Proof.
  revert a. induction l as [|b l IH]; intros a; cbn [fold_left].
  - split; [now left | repeat constructor; apply Qle_refl].
  - destruct (IH (Qmax a b)) as [Hin Hall].
    inversion Hall as [|? ? Hm Hl]; subst.
    pose proof (Q.le_max_l a b) as Ha. pose proof (Q.le_max_r a b) as Hb.
    split.
    + destruct Hin as [E|Hin]; [|right; now right].
      rewrite <- E. unfold Qmax, GenericMinMax.gmax.
      destruct (a ?= b)%Q; [now left | right; now left | now left].
    + constructor; [eapply Qle_trans; eauto|].
      constructor; [eapply Qle_trans; eauto | exact Hl].
Qed.

(** The per-country means of a view, as numbers. *)
Lemma country_avg_values fd :
  fd <> [] ->
  exists m means,
    map snd (country_avg fd) = map Some (m :: means).
Proof.
  intros Hne. rewrite country_avg_eq, map_map. cbn [snd].
  destruct (map fst (groupby String.ltb (fun r => Some (Country r)) fd))
    as [|c cs] eqn:E.
  - exfalso. destruct fd as [|r fd]; [congruence|].
    assert (Hin : In (Country r)
                     (map fst (groupby String.ltb (fun r => Some (Country r))
                                       (r :: fd)))).
    { apply groupby_keys; [typeclasses eauto|].
      exists r. split; [now left | reflexivity]. }
    rewrite E in Hin. destruct Hin.
  - exists (arith_mean
              (map Coffee_Intake (filter (fun r => String.eqb (Country r) c) fd))).
    exists (map (fun c =>
                   arith_mean
                     (map Coffee_Intake
                          (filter (fun r => String.eqb (Country r) c) fd))) cs).
    cbn [map]. now rewrite map_map.
Qed.

Lemma NoDup_map_eq {A B : Type} (f : A -> B) (l : list A) a b :
  NoDup (map f l) -> In a l -> In b l -> f a = f b -> a = b.
Proof.
  induction l as [|x l IH]; cbn [map]; intros Hnd Ha Hb E; [destruct Ha|].
  inversion Hnd as [|? ? Hx Hl]; subst.
  destruct Ha as [->|Ha], Hb as [->|Hb]; auto.
  - exfalso. apply Hx. rewrite E. now apply in_map.
  - exfalso. apply Hx. rewrite <- E. now apply in_map.
Qed.

Lemma dict_get_country_cases c :
  c = "USA" /\ dict_get country_name_map c c = "United States" \/
  c = "UK" /\ dict_get country_name_map c c = "United Kingdom" \/
  c = "South Korea" /\ dict_get country_name_map c c = "Korea, Rep." \/
  c <> "USA" /\ c <> "UK" /\ c <> "South Korea" /\
  dict_get country_name_map c c = c.
Proof.
  unfold dict_get, country_name_map, dict_lookup.
  destruct (String.eqb_spec c "USA"); [tauto|].
  destruct (String.eqb_spec c "UK"); [tauto|].
  destruct (String.eqb_spec c "South Korea"); tauto.
Qed.

Lemma data_list_names fd :
  map fst (data_list fd) =
  map (fun c => dict_get country_name_map c c)
      (map fst (groupby String.ltb (fun r => Some (Country r)) fd)).
Proof.
  unfold data_list, country_avg. rewrite !map_map. reflexivity.
Qed.

Lemma country_keys fd c :
  In c (map fst (groupby String.ltb (fun r => Some (Country r)) fd)) <->
  In c (map Country fd).
Proof.
  rewrite groupby_keys by typeclasses eauto. symmetry. apply keys_of_column.
Qed.

(** X12: the names of the map data are pairwise different exactly when the
    view does not hold a renamed country together with the name it is
    renamed to (such as "USA" beside "United States"); in that case the two
    countries come out as two entries under one name. *)
Theorem data_list_names_distinct (fd : DataFrame) :
  NoDup (map fst (data_list fd)) <-> ~ alias_clash fd.
Proof.
  rewrite data_list_names.
  set (cs := map fst (groupby String.ltb (fun r => Some (Country r)) fd)).
  split.
  - intros Hnd (alias & target & Hmap & Ha & Ht).
    apply country_keys in Ha. apply country_keys in Ht.
    assert (H : dict_get country_name_map alias alias
                = dict_get country_name_map target target /\ alias <> target).
    { cbn [country_name_map In] in Hmap.
      destruct Hmap as [[= <- <-]|[[= <- <-]|[[= <- <-]|[]]]];
        split; [reflexivity | discriminate | reflexivity | discriminate
               | reflexivity | discriminate]. }
    destruct H as [E Hne]. apply Hne.
    exact (NoDup_map_eq _ cs alias target Hnd Ha Ht E).
  - intros Hclash. apply NoDup_map_NoDup_ForallPairs.
    + intros c1 c2 H1 H2 E.
      apply country_keys in H1. apply country_keys in H2.
      assert (Hno : forall alias target,
                 In (alias, target) country_name_map ->
                 In alias (map Country fd) -> In target (map Country fd) -> False).
      { intros alias target Hm Ha Ht. apply Hclash.
        exists alias, target. auto. }
      destruct (dict_get_country_cases c1) as [[-> E1]|[[-> E1]|[[-> E1]|(A1 & B1 & C1 & E1)]]];
      destruct (dict_get_country_cases c2) as [[-> E2]|[[-> E2]|[[-> E2]|(A2 & B2 & C2 & E2)]]];
        rewrite ?E1, ?E2 in E; try reflexivity; try discriminate; try assumption;
        exfalso; subst.
      * apply (Hno "USA" "United States"); [cbn; tauto | assumption | assumption].
      * apply (Hno "UK" "United Kingdom"); [cbn; tauto | assumption | assumption].
      * apply (Hno "South Korea" "Korea, Rep."); [cbn; tauto | assumption | assumption].
      * apply (Hno "USA" "United States"); [cbn; tauto | assumption | assumption].
      * apply (Hno "UK" "United Kingdom"); [cbn; tauto | assumption | assumption].
      * apply (Hno "South Korea" "Korea, Rep."); [cbn; tauto | assumption | assumption].
    + apply (sorted_NoDup String.ltb), groupby_sorted. typeclasses eauto.
Qed.

(** X13: on a non-empty view the per-country means have a smallest and a
    largest value, none of them NaN; the lower bound of the colour scale is
    the smallest mean, and the upper bound is the largest mean unless that
    is 0, in which case it is 1. *)
Theorem visualmap_bounds (fd : DataFrame) :
  fd <> [] ->
  exists lo hi : Q,
    series_min (map snd (country_avg fd)) = Some lo /\
    series_max (map snd (country_avg fd)) = Some hi /\
    In (Some lo) (map snd (country_avg fd)) /\
    In (Some hi) (map snd (country_avg fd)) /\
    Forall (fun v => exists m, v = Some m /\ (lo <= m <= hi)%Q)
           (map snd (country_avg fd)) /\
    (exists lo', min_val fd = Some lo' /\ (lo' == lo)%Q) /\
    ((hi == 0)%Q /\ max_val fd = Some 1%Q \/
     ~ (hi == 0)%Q /\ max_val fd = Some hi).
Proof.
  intros Hne. unfold min_val, max_val, series_min, series_max.
  destruct (country_avg_values fd Hne) as (m & means & ->).
  rewrite dropna_map_Some.
  destruct (fold_left_Qmin means m) as [Hlo_in Hlo].
  destruct (fold_left_Qmax means m) as [Hhi_in Hhi].
  exists (fold_left Qmin means m), (fold_left Qmax means m).
  split; [reflexivity|]. split; [reflexivity|].
  split; [now apply in_map|]. split; [now apply in_map|].
  split; [|split].
  - apply Forall_forall. intros v Hv. apply in_map_iff in Hv as (x & <- & Hx).
    exists x. split; [reflexivity|].
    rewrite Forall_forall in Hlo, Hhi. split; auto.
  - pose proof (py_or_cases (Some (fold_left Qmin means m)) 0) as H.
    cbv beta iota in H. destruct H as [[E ->]|[_ ->]].
    + exists 0%Q. split; [reflexivity | now symmetry].
    + eexists. split; [reflexivity | apply Qeq_refl].
  - pose proof (py_or_cases (Some (fold_left Qmax means m)) 1) as H.
    cbv beta iota in H. destruct H as [[E ->]|[E ->]]; [left | right];
      split; auto.
Qed.

Lemma visualmap_bounds_witness :
  filtered_data fixture fixture_criteria <> [] /\
  exists lo hi : Q,
    series_min (map snd (country_avg (filtered_data fixture fixture_criteria)))
    = Some lo /\
    series_max (map snd (country_avg (filtered_data fixture fixture_criteria)))
    = Some hi /\
    (lo <= hi)%Q.
Proof.
  assert (H : filtered_data fixture fixture_criteria <> []) by discriminate.
  split; [exact H|].
  destruct (visualmap_bounds _ H) as (lo & hi & Hlo & Hhi & Hin & _ & Hall & _).
  exists lo, hi. split; [exact Hlo|]. split; [exact Hhi|].
  rewrite Forall_forall in Hall.
  destruct (Hall _ Hin) as (m & [= <-] & H1 & H2). exact H2.
Defined.

(** *** Groups by two columns *)

Lemma keqb_pair {A B : Type} (ltA : A -> A -> bool) (ltB : B -> B -> bool)
  `{!StrictTotal ltA} `{!StrictTotal ltB} (p q : A * B) :
  keqb (ltb_pair ltA ltB) p q
  = keqb ltA (fst p) (fst q) && keqb ltB (snd p) (snd q).
Proof.
  apply eq_true_iff_eq.
  rewrite andb_true_iff, !keqb_eq by typeclasses eauto.
  destruct p, q; cbn [fst snd]. split.
  - intros [= -> ->]. auto.
  - intros [-> ->]. reflexivity.
Qed.

Lemma keqb_nat a b : keqb Nat.ltb a b = Nat.eqb a b.
Proof.
  destruct (Nat.eqb_spec a b) as [E|E].
  - apply keqb_eq; [typeclasses eauto | assumption].
  - apply keqb_neq; [typeclasses eauto | assumption].
Qed.

Lemma group_of_two_columns (col : record -> string) x g fd :
  group_of (ltb_pair String.ltb String.ltb)
           (fun r => Some (col r, Gender r)) (x, g) fd
  = filter (fun r => String.eqb (col r) x && String.eqb (Gender r) g) fd.
Proof.
  apply filter_ext. intros r.
  rewrite keqb_pair by typeclasses eauto. cbn [fst snd].
  now rewrite !keqb_string.
Qed.

Lemma habits_by_In (col : record -> string) fd x g rows :
  In ((x, g), rows) (habits_by col fd) <->
  rows = filter (fun r => String.eqb (col r) x && String.eqb (Gender r) g) fd /\
  rows <> [].
Proof.
  unfold habits_by. rewrite groupby_In by typeclasses eauto.
  now rewrite group_of_two_columns.
Qed.

Lemma length_concat_map {A B : Type} (f : A -> B) (ls : list (list A)) :
  List.length (List.concat (map (map f) ls)) = List.length (List.concat ls).
Proof.
  induction ls as [|l ls IH]; [reflexivity|].
  cbn [map List.concat]. now rewrite !length_app, length_map, IH.
Qed.

(** X14: the bar chart has one bar per pair of occupation and gender that
    occurs in the view, ordered by occupation and then by gender and named
    "occupation (gender)"; the axis labels and the values line up. *)
Theorem data_bar_per_pair (fd : DataFrame) (hb : habit) :
  exists ks : list (string * string),
    StronglySorted (fun p q => ltb_pair String.ltb String.ltb p q = true) ks /\
    (forall k, In k ks <-> In k (map (fun r => (Occupation r, Gender r)) fd)) /\
    map fst (data_bar fd)
    = map (fun k => (fst k ++ " (" ++ snd k ++ ")")%string) ks /\
    nth_error (fst (tab4 hb fd)) 0
    = Some (st_echarts (Bar (map fst (data_bar fd)) (map snd (data_bar fd)))) /\
    List.length (map fst (data_bar fd)) = List.length ks /\
    List.length (map snd (data_bar fd)) = List.length ks.
Proof.
  exists (map fst (groupby (ltb_pair String.ltb String.ltb)
                           (fun r => Some (Occupation r, Gender r)) fd)).
  split; [apply groupby_sorted; typeclasses eauto|].
  split.
  { intros k. rewrite groupby_keys by typeclasses eauto.
    rewrite in_map_iff. split; intros (r & H1 & H2); exists r.
    - split; [congruence | assumption].
    - split; [assumption | congruence]. }
  split; [|split; [reflexivity|]].
  - unfold data_bar, occupation_avg. rewrite !map_map. reflexivity.
  - unfold data_bar, occupation_avg. rewrite !length_map. split; reflexivity.
Qed.

(** X15: for the habits Smoking and Alcohol_Consumption the boxplot has
    one box per pair of habit value and gender that occurs in the view; a
    box holds the coffee intakes of the rows of its pair in index order, no
    box is empty, and the boxes together hold every row of the view once. *)
Theorem habits_categorical_partition (fd : DataFrame) :
  boxplot_of Smoking fd (habits Habit_Smoking fd) /\
  boxplot_of Alcohol_Consumption fd (habits Habit_Alcohol_Consumption fd).
Proof.
  assert (H : forall col : record -> string,
             boxplot_of col fd
               (map (fun kg => (fst kg, map Coffee_Intake (snd kg)))
                    (habits_by col fd))).
  { intros col.
    unfold boxplot_of. split; [|split].
    - rewrite map_map. cbn [fst].
      apply (sorted_NoDup (ltb_pair String.ltb String.ltb)).
      apply groupby_sorted. typeclasses eauto.
    - intros x g vals. rewrite in_map_iff. split.
      + intros ([[x' g'] rows] & [= -> -> <-] & Hin).
        apply habits_by_In in Hin as [-> Hne]. split; [|reflexivity].
        now apply map_nonempty.
      + intros [Hne ->].
        exists ((x, g),
                filter (fun r => String.eqb (col r) x && String.eqb (Gender r) g) fd).
        split; [reflexivity|]. apply habits_by_In. split; [reflexivity|].
        intros E. apply Hne. now rewrite E.
    - rewrite map_map. cbn [snd].
      rewrite <- (map_map snd (map Coffee_Intake)), length_concat_map.
      unfold habits_by. rewrite groupby_rows.
      f_equal. clear. induction fd as [|r fd IH]; [reflexivity|].
      cbn [filter]. now rewrite IH. }
  split; apply H.
Qed.

(** *** Activity boxes *)

Lemma cut_code_activity_lt x code :
  cut_code activity_edges x = Some code -> (code < 4)%nat.
Proof.
  rewrite cut_code_activity.
  repeat match goal with
         | |- context [Qle_bool x ?b] => destruct (Qle_bool x b)
         end; intros [= <-]; lia.
Qed.

Lemma Activity_Bins_label r code :
  (code < 4)%nat ->
  match Activity_Bins r with
  | Some l => String.eqb l (nth code activity_labels "")
  | None => false
  end
  = match cut_code activity_edges (Physical_Activity_Hours r) with
    | Some c => Nat.eqb c code
    | None => false
    end.
Proof.
  intros Hc. unfold Activity_Bins, pd_cut. rewrite cut_code_activity.
  repeat match goal with
         | |- context [Qle_bool ?x ?b] => destruct (Qle_bool x b)
         end; cbn [option_map]; try reflexivity;
    destruct code as [|[|[|[|code]]]]; try reflexivity; lia.
Qed.

Lemma habits_activity_In fd code g rows :
  In ((code, g), rows) (habits_activity fd) <->
  rows = filter (in_activity_box (nth code activity_labels "") g) fd /\
  rows <> [] /\ (code < 4)%nat.
Proof.
  unfold habits_activity. rewrite groupby_In by typeclasses eauto.
  assert (E : (code < 4)%nat ->
              group_of (ltb_pair Nat.ltb String.ltb)
                (fun r => option_map (fun code => (code, Gender r))
                            (cut_code activity_edges (Physical_Activity_Hours r)))
                (code, g) fd
              = filter (in_activity_box (nth code activity_labels "") g) fd).
  { intros Hc. apply filter_ext. intros r. unfold in_activity_box.
    pose proof (Activity_Bins_label r code Hc) as H.
    destruct (cut_code activity_edges (Physical_Activity_Hours r)) as [c|];
      cbn [option_map].
    - rewrite keqb_pair by typeclasses eauto. cbn [fst snd].
      rewrite keqb_nat, keqb_string, <- H.
      destruct (Activity_Bins r); reflexivity.
    - destruct (Activity_Bins r); [|reflexivity].
      rewrite H. reflexivity. }
  split.
  - intros [-> Hne].
    assert (Hc : (code < 4)%nat).
    { apply group_of_nonempty in Hne as (r & _ & Hk); [|typeclasses eauto].
      destruct (cut_code activity_edges (Physical_Activity_Hours r)) as [c|] eqn:Ec;
        [|discriminate].
      injection Hk as -> _. now apply cut_code_activity_lt in Ec. }
    rewrite (E Hc) in *. auto.
  - intros (-> & Hne & Hc). rewrite (E Hc). auto.
Qed.

(** X16: in the boxplot by activity hours every box is named by one of
    the four bin labels, and every row of the view that has a bin is in the
    box of its bin and gender: that box holds the coffee intakes of the rows
    of the view in that bin with that gender, in row order. *)
Theorem habits_activity_boxes (fd : DataFrame) :
  Forall (fun box => In (fst (fst box)) activity_labels)
         (habits Habit_Physical_Activity_Hours fd) /\
  Forall (fun r =>
            match Activity_Bins r with
            | Some label =>
                In ((label, Gender r),
                    map Coffee_Intake
                        (filter (in_activity_box label (Gender r)) fd))
                   (habits Habit_Physical_Activity_Hours fd)
            | None => True
            end)
         fd.
Proof.
  split.
  - apply Forall_forall. intros box Hbox. unfold habits in Hbox.
    apply in_map_iff in Hbox as ([[code g] rows] & <- & Hin).
    cbn [fst snd]. apply habits_activity_In in Hin as (_ & _ & Hc).
    destruct code as [|[|[|[|code]]]]; cbn; try tauto. lia.
  - apply Forall_forall. intros r Hr.
    destruct (Activity_Bins r) as [label|] eqn:El; [|exact I].
    unfold Activity_Bins, pd_cut in El.
    destruct (cut_code activity_edges (Physical_Activity_Hours r)) as [code|] eqn:Ec;
      [|discriminate].
    cbn [option_map] in El. injection El as <-.
    unfold habits. apply in_map_iff.
    exists ((code, Gender r),
            filter (in_activity_box (nth code activity_labels "") (Gender r)) fd).
    split; [reflexivity|].
    apply habits_activity_In. split; [reflexivity|].
    split; [|now apply cut_code_activity_lt in Ec].
    intros E.
    assert (Hin : In r (filter (in_activity_box (nth code activity_labels "")
                                                (Gender r)) fd)).
    { apply filter_In. split; [assumption|].
      unfold in_activity_box, Activity_Bins, pd_cut. rewrite Ec.
      cbn [option_map]. now rewrite !String.eqb_refl. }
    rewrite E in Hin. destruct Hin.
Qed.

(** X17: on a view of the loaded table the boxplot by activity hours has
    at most 8 boxes (4 bins, 2 genders), each named by one of the four bin
    labels and by "Male" or "Female". *)
Theorem habits_activity_at_most_8 (csv : DataFrame) (c : FilterCriteria) :
  (List.length (habits Habit_Physical_Activity_Hours
                       (filtered_data (load_data csv) c)) <= 8)%nat /\
  Forall (fun box =>
            In (fst (fst box)) activity_labels /\
            In (snd (fst box)) ["Male"; "Female"])
         (habits Habit_Physical_Activity_Hours (filtered_data (load_data csv) c)).
Proof.
  set (fd := filtered_data (load_data csv) c).
  assert (Hkeys : forall k, In k (map fst (habits_activity fd)) ->
                            In k (list_prod [0; 1; 2; 3]%nat ["Male"; "Female"])).
  { intros [code g] Hk. unfold habits_activity in Hk.
    apply groupby_keys in Hk as (r & Hr & Hkey); [|typeclasses eauto].
    destruct (cut_code activity_edges (Physical_Activity_Hours r)) as [code'|] eqn:Ec;
      [|discriminate].
    injection Hkey as -> <-. apply cut_code_activity_lt in Ec.
    unfold fd, filtered_data, load_data in Hr.
    apply filter_In in Hr as [Hr _]. apply filter_In in Hr as [_ Hr].
    apply isin_In in Hr. apply in_prod; [|exact Hr].
    cbn. lia. }
  split.
  - unfold habits. rewrite length_map, <- (length_map fst).
    change 8%nat with (List.length (list_prod [0; 1; 2; 3]%nat ["Male"; "Female"])).
    apply NoDup_incl_length; [|exact Hkeys].
    apply (sorted_NoDup (ltb_pair Nat.ltb String.ltb)).
    apply groupby_sorted. typeclasses eauto.
  - apply Forall_forall. intros box Hbox. unfold habits in Hbox.
    apply in_map_iff in Hbox as ([[code g] rows] & <- & Hin).
    cbn [fst snd].
    assert (Hk : In (code, g) (map fst (habits_activity fd)))
      by (apply in_map_iff; exists ((code, g), rows); auto).
    apply Hkeys, in_prod_iff in Hk as [Hcode Hg]. split; [|exact Hg].
    cbn in Hcode. destruct Hcode as [<-|[<-|[<-|[<-|[]]]]]; cbn; tauto.
Qed.

(** *** The age axis *)

Lemma NoDup_range_length (lo hi : Z) (l : list Z) :
  NoDup l -> Forall (fun a => lo <= a <= hi) l ->
  (List.length l <= Z.to_nat (hi - lo + 1))%nat.
Proof.
  intros Hnd Hall.
  assert (E : List.length (map (fun i => lo + Z.of_nat i)
                                (seq 0 (Z.to_nat (hi - lo + 1))))
              = Z.to_nat (hi - lo + 1))
    by now rewrite length_map, length_seq.
  rewrite <- E.
  apply NoDup_incl_length; [exact Hnd|].
  intros a Ha. rewrite Forall_forall in Hall. specialize (Hall a Ha).
  apply in_map_iff. exists (Z.to_nat (a - lo)). split; [lia|].
  apply in_seq. lia.
Qed.

(** X18: the ages on the x axis of the trend chart of a filtered view all
    lie in the selected age range, so there are at most max - min + 1 of
    them, and each series has at most that many points. *)
Theorem option_line_within_age_range (data : DataFrame) (c : FilterCriteria) :
  match option_line (filtered_data data c) with
  | Line xs coffee sleep =>
      Forall (fun a => fst (age_range c) <= a <= snd (age_range c)) xs /\
      (List.length xs
       <= Z.to_nat (snd (age_range c) - fst (age_range c) + 1))%nat /\
      List.length coffee = List.length xs /\
      List.length sleep = List.length xs
  | _ => False
  end.
Proof.
  unfold option_line, age_trend. rewrite !map_map. cbn [fst snd].
  rewrite !length_map.
  assert (H : Forall (fun a => fst (age_range c) <= a <= snd (age_range c))
                (map fst (groupby Z.ltb (fun r => Some (Age r))
                                  (filtered_data data c)))).
  { apply Forall_forall. intros a Ha.
    apply groupby_keys in Ha as (r & Hr & [= <-]); [|typeclasses eauto].
    unfold filtered_data in Hr. apply filter_In in Hr as [_ Hp].
    apply passes_spec in Hp. tauto. }
  split; [exact H|]. split; [|split; reflexivity].
  rewrite <- (length_map fst).
  apply NoDup_range_length; [|exact H].
  apply (sorted_NoDup Z.ltb), groupby_sorted. typeclasses eauto.
Qed.

(** *** pd.cut *)

Lemma searchsorted_left_spec (bins : list Q) (x : Q) :
  StronglySorted Qlt bins ->
  forall j, (j < List.length bins)%nat ->
            (j < searchsorted_left bins x)%nat <-> (nth j bins 0 < x)%Q.
Proof.
  induction 1 as [|b bs Hs IH Hall]; intros j Hj; cbn [List.length] in Hj;
    [lia|].
  cbn [searchsorted_left]. destruct (Qle_bool x b) eqn:E.
  - apply Qle_bool_iff in E. split; [lia|]. intros Hx. exfalso.
    destruct j as [|j]; cbn [nth] in Hx; [lra|].
    rewrite Forall_forall in Hall.
    assert (Hb : (b < nth j bs 0)%Q) by (apply Hall, nth_In; lia).
    lra.
  - apply Qle_bool_false in E. destruct j as [|j]; cbn [nth].
    + split; [intros _; exact E | lia].
    + rewrite <- IH by lia. lia.
Qed.

Lemma searchsorted_left_le (bins : list Q) (x : Q) :
  (searchsorted_left bins x <= List.length bins)%nat.
Proof.
  induction bins as [|b bs IH]; cbn [searchsorted_left List.length]; [lia|].
  destruct (Qle_bool x b); lia.
Qed.

(** X19: for increasing edges, [pd.cut] gives a value the code [i] exactly
    when it lies above edge [i] and at or below edge [i + 1]: every interval
    is open on the left and closed on the right, a value at or below the
    first edge or above the last gets no code. *)
Theorem cut_code_interval (bins : list Q) (x : Q) (i : nat) :
  StronglySorted Qlt bins ->
  cut_code bins x = Some i <->
  (S i < List.length bins)%nat /\ (nth i bins 0 < x <= nth (S i) bins 0)%Q.
Proof.
  intros Hs. unfold cut_code.
  pose proof (searchsorted_left_le bins x) as Hle.
  pose proof (searchsorted_left_spec bins x Hs) as Hspec.
  set (n := searchsorted_left bins x) in *.
  destruct (Nat.eqb_spec n 0) as [E0|E0]; cbn [orb].
  - split; [discriminate|]. intros [Hlen [Hlo _]].
    apply Hspec in Hlo; lia.
  - destruct (Nat.eqb_spec n (List.length bins)) as [El|El].
    + split; [discriminate|]. intros [Hlen [_ Hhi]].
      assert (Hn : (S i < n)%nat) by lia.
      apply Hspec in Hn; [lra | lia].
    + split.
      * intros [= <-].
        assert (Hn : S (Nat.pred n) = n) by lia. rewrite Hn.
        split; [lia|]. split.
        -- apply Hspec; lia.
        -- apply Qnot_lt_le. intros Hx. apply Hspec in Hx; lia.
      * intros [Hlen [Hlo Hhi]]. f_equal.
        apply Hspec in Hlo; [|lia].
        assert (Hn : ~ (S i < n)%nat).
        { intros Hn. apply Hspec in Hn; [lra | lia]. }
        lia.
Qed.

Lemma cut_code_interval_witness :
  StronglySorted Qlt activity_edges /\
  (cut_code activity_edges (7 # 2) = Some 1%nat <->
   (2 < List.length activity_edges)%nat /\
   (nth 1 activity_edges 0 < 7 # 2 <= nth 2 activity_edges 0)%Q).
Proof.
  assert (H : StronglySorted Qlt activity_edges).
  { unfold activity_edges.
    repeat (constructor; [|repeat constructor; reflexivity]). constructor. }
  split; [exact H|].
  exact (cut_code_interval activity_edges (7 # 2) 1 H).
Defined.

(** *** The entries of the map and of the trend chart *)

(** X8: the map data has one entry per distinct country of the view, in
    ascending order of the country as the table names it; the entry carries
    the name of the country in the boundary file: "USA", "UK" and
    "South Korea" are renamed to "United States", "United Kingdom" and
    "Korea, Rep.", every other name is kept. *)
Theorem data_list_countries (fd : DataFrame) :
  (exists cs : list string,
      StronglySorted (fun a b => String.ltb a b = true) cs /\
      (forall c, In c cs <-> In c (map Country fd)) /\
      List.length cs = List.length (nodup string_dec (map Country fd)) /\
      map fst (data_list fd) = map (fun c => dict_get country_name_map c c) cs /\
      List.length (data_list fd) = List.length cs) /\
  dict_get country_name_map "USA" "USA" = "United States" /\
  dict_get country_name_map "UK" "UK" = "United Kingdom" /\
  dict_get country_name_map "South Korea" "South Korea" = "Korea, Rep." /\
  (forall c : string,
      c = "USA" \/ c = "UK" \/ c = "South Korea" \/
      dict_get country_name_map c c = c).
Proof.
  split.
  - exists (map fst (groupby String.ltb (fun r => Some (Country r)) fd)).
    split; [apply groupby_sorted; typeclasses eauto|].
    split; [apply country_keys|].
    split.
    { rewrite length_map.
      apply groupby_length; [typeclasses eauto|]. apply keys_of_column. }
    split; [apply data_list_names|].
    unfold data_list, country_avg. now rewrite !length_map.
  - repeat split. intros c.
    destruct (dict_get_country_cases c) as [[H _]|[[H _]|[[H _]|(_ & _ & _ & H)]]];
      tauto.
Qed.

(** X20: the x axis of the trend chart holds the distinct ages of the
    view in ascending order, and each of the two series has one point per
    age. *)
Theorem option_line_ages (fd : DataFrame) :
  exists ages : list Z,
    StronglySorted Z.lt ages /\
    (forall a, In a ages <-> In a (map Age fd)) /\
    List.length ages = List.length (nodup Z.eq_dec (map Age fd)) /\
    match option_line fd with
    | Line xs coffee sleep =>
        xs = ages /\
        List.length coffee = List.length ages /\
        List.length sleep = List.length ages
    | _ => False
    end.
Proof.
  exists (map fst (groupby Z.ltb (fun r => Some (Age r)) fd)).
  split; [|split; [|split]].
  - pose proof (groupby_sorted Z.ltb (fun r => Some (Age r)) fd) as Hs.
    eapply StronglySorted_ind with (P := StronglySorted Z.lt) in Hs.
    + exact Hs.
    + constructor.
    + intros a l _ IH Hall. constructor; [exact IH|].
      eapply Forall_impl; [|exact Hall]. intros b. apply Z.ltb_lt.
  - intros a. rewrite groupby_keys by typeclasses eauto.
    symmetry. apply keys_of_column.
  - rewrite length_map.
    apply groupby_length; [typeclasses eauto|]. apply keys_of_column.
  - unfold option_line, age_trend. rewrite !length_map, map_map.
    split; [|split]; reflexivity.
Qed.
